(** * AutoML Natural Language sentiment-model sample: a shallow embedding

    The development follows
    [language/automl/automl_natural_language_sentiment_model.py].  Each
    command of the sample becomes a computation in a small writer/error
    monad whose log records, in program order, the clients that were
    opened, the client methods that were called, the polls of a
    long-running operation and the lines written to standard output.
    The remote service (a record of canned responses) and the local-time
    conversion of the host are explicit arguments, so every command is an
    executable Rocq function.

    Python is Python 3: [round] breaks ties to even, and the text shown
    for a float reads back as the same float. *)

From Stdlib Require Import ZArith List String Ascii Bool Lia Arith.
From Stdlib Require Import Floats.SpecFloat.
Import ListNotations.

Local Open Scope string_scope.
Local Open Scope list_scope.

(* ===================================================================== *)
(** * Python values used by the sample *)
(* ===================================================================== *)

Module Py.

(** ** Strings: [str.split] with a one-character separator and [xs[-1]] *)

(** [s.split(sep)] for a separator of length one.  The result is never
    empty: the empty string splits into one empty field. *)
Fixpoint split (sep : ascii) (s : string) : list string :=
  match s with
  | EmptyString => [EmptyString]
  | String c rest =>
      if Ascii.eqb c sep then EmptyString :: split sep rest
      else match split sep rest with
           | field :: fields => String c field :: fields
           | [] => [String c EmptyString]
           end
  end.

(** [xs[-1]]: the last element; [None] stands for [IndexError]. *)
Fixpoint index_last {A : Type} (xs : list A) : option A :=
  match xs with
  | [] => None
  | [x] => Some x
  | _ :: rest => index_last rest
  end.

(** [sep.join(fields)] for a separator of length one. *)
Fixpoint join (sep : ascii) (fields : list string) : string :=
  match fields with
  | [] => EmptyString
  | [field] => field
  | field :: rest => field ++ String sep (join sep rest)
  end.

(** Truth value of a string: [not s] holds exactly for the empty string. *)
Definition not_str (s : string) : bool :=
  match s with
  | EmptyString => true
  | String _ _ => false
  end.

(** Does the character occur in the string? *)
Fixpoint contains (c : ascii) (s : string) : bool :=
  match s with
  | EmptyString => false
  | String a rest => Ascii.eqb a c || contains c rest
  end.

(** A [datetime.datetime] without time zone: the fields of a local
    time. *)
Record datetime := {
  year : Z;
  month : Z;
  day : Z;
  hour : Z;
  minute : Z;
  second : Z
}.

End Py.

Definition slash : ascii := "/"%char.

(* ===================================================================== *)
(** * Python floats: IEEE 754 binary64 *)
(* ===================================================================== *)

Module Float64.

Local Open Scope Z_scope.

Definition float := spec_float.
Definition prec : Z := 53.
Definition emax : Z := 1024.

(** [x * y], [x - y] and [x / y] on floats, [float(n)] for an integer. *)
Definition mul (x y : float) : float := SFmul prec emax x y.
Definition sub (x y : float) : float := SFsub prec emax x y.
Definition div (x y : float) : float := SFdiv prec emax x y.
Definition of_int (n : Z) : float := binary_normalize prec emax n 0 false.

(** The same float, bit for bit (NaN payloads apart). *)
Definition same (x y : float) : bool :=
  match x, y with
  | S754_zero s, S754_zero s' => Bool.eqb s s'
  | S754_infinity s, S754_infinity s' => Bool.eqb s s'
  | S754_nan, S754_nan => true
  | S754_finite s m e, S754_finite s' m' e' =>
      Bool.eqb s s' && Pos.eqb m m' && Z.eqb e e'
  | _, _ => false
  end.

(** The integer nearest to [n / d] for [0 < d], a tie going to the even
    neighbour. *)
Definition rne_div (n d : Z) : Z :=
  let q := n / d in
  let r := n mod d in
  match 2 * r ?= d with
  | Lt => q
  | Gt => q + 1
  | Eq => if Z.even q then q else q + 1
  end.

(** The fraction [n / (d * 2^t)] as a pair of integers. *)
Definition scale2 (n d t : Z) : Z * Z :=
  if 0 <=? t then (n, d * 2 ^ t) else (n * 2 ^ (- t), d).

(** The exponent [mag] with [2^(mag-1) <= n/d < 2^mag], for [0 < n, d]. *)
Definition mag (n d : Z) : Z :=
  let e0 := Z.log2 n - Z.log2 d in
  let '(a, b) := scale2 n d e0 in
  if b <=? a then e0 + 1 else e0.

(** The binary64 number nearest to [n / d] (ties to even) with sign [s],
    for [0 < n, d]: what reading a decimal literal produces. *)
Definition of_ratio (s : bool) (n d : Z) : float :=
  let e := fexp prec emax (mag n d) in
  let '(a, b) := scale2 n d e in
  let m := rne_div a b in
  let '(m, e) := if m =? 2 ^ prec then (2 ^ (prec - 1), e + 1) else (m, e) in
  match m with
  | Zpos p => if e <=? emax - prec then S754_finite s p e else S754_infinity s
  | _ => S754_zero s
  end.

(** [round(x, ndigits)] for [0 <= ndigits], as Python 3 computes it: the
    exact value of [x] is rounded to [ndigits] decimals, ties to even, and
    the decimal result is read back as a float.  Zeros, infinities and NaN
    are returned as they are. *)
Definition round (x : float) (ndigits : Z) : float :=
  match x with
  | S754_finite s m e =>
      let '(a, b) := scale2 (Zpos m * 10 ^ ndigits) 1 (- e) in
      let k := rne_div a b in
      if k =? 0 then S754_zero s else of_ratio s k (10 ^ ndigits)
  | _ => x
  end.

(** A binary32 number as the float of the same value: what a [float]
    field of a received message holds. *)
Definition of_single (x : spec_float) : float :=
  match x with
  | S754_finite s m e => binary_round prec emax s m e
  | _ => x
  end.

(** The binary32 number nearest to [n / d], for integers below [2^24],
    as a float. *)
Definition single (n d : Z) : float :=
  of_single (SFdiv 24 128 (binary_normalize 24 128 n 0 false)
               (binary_normalize 24 128 d 0 false)).

(** [abs(a - b) <= tol] *)
Definition within (tol a b : float) : bool :=
  SFleb (SFabs (sub a b)) tol.

End Float64.

(* ===================================================================== *)
(** * The AutoML client library as the sample sees it *)
(* ===================================================================== *)

Module AutoML.

(** ** Resource paths *)

(** Modelled from the spec: the path helpers of the client library
    ([AutoMlClient.location_path], [model_path], [model_evaluation_path])
    are not part of the sample.  A resource path is the concatenation of
    its components between fixed separators, as in
    [projects/p/locations/us-central1/models/ICN123]; nothing is
    validated. *)
Definition location_path (project location : string) : string :=
  "projects/" ++ project ++ "/locations/" ++ location.

Definition model_path (project location model : string) : string :=
  "projects/" ++ project ++ "/locations/" ++ location ++ "/models/" ++ model.

Definition model_evaluation_path
    (project location model model_evaluation : string) : string :=
  "projects/" ++ project ++ "/locations/" ++ location ++ "/models/" ++ model
    ++ "/modelEvaluations/" ++ model_evaluation.

(** A path component is well formed when it holds no separator. *)
Definition well_formed (component : string) : Prop :=
  Py.contains slash component = false.

(** ** Messages *)

(** [enums.Model.DeploymentState]; the field of a received model holds
    any integer, not only the named ones. *)
Module DeploymentState.
Definition DEPLOYMENT_STATE_UNSPECIFIED : Z := 0.
Definition DEPLOYED : Z := 1.
Definition UNDEPLOYED : Z := 2.
End DeploymentState.

Definition float := Float64.float.

Record Timestamp := { seconds : Z }.

Record Model := {
  name : string;
  display_name : string;
  create_time : Timestamp;
  deployment_state : Z
}.

Record TextSentimentEvaluationMetrics := {
  precision : float;
  recall : float;
  f1_score : float;
  mean_absolute_error : float;
  mean_squared_error : float;
  linear_kappa : float;
  quadratic_kappa : float
}.

Record ModelEvaluation := {
  evaluation_name : string;
  annotation_spec_id : string;
  text_sentiment_evaluation_metrics : TextSentimentEvaluationMetrics
}.

(** The model dictionary passed to [create_model]; the value of
    [text_sentiment_model_metadata] is the empty dictionary. *)
Record ModelSpec := {
  spec_display_name : string;
  spec_dataset_id : string
}.

(** [google.longrunning.Operation], as returned by [get_operation]. *)
Record OperationProto := {
  operation_name : string;
  operation_done : bool
}.

(** ** Failures *)

Inductive exception :=
  | UnboundLocalError (variable : string)
  | IndexError
  | KeyError (key : string)
  | GoogleAPICallError (message : string)
  | ValueError (message : string)
  | OverflowError (message : string)
  | OSError (message : string).

Definition result (A : Type) : Type := (exception + A)%type.

(** The handle of a long-running operation returned by a mutating call.
    [pending] is the number of polls that still find the operation
    running; [outcome] is what the finished operation yields (the text of
    its result message, or the error it raises). *)
Record Operation := {
  operation : OperationProto;
  pending : nat;
  outcome : result string
}.

(** A paged response: the elements the iterator yields and, when fetching
    a page fails, the error raised after them. *)
Record Pager (A : Type) := {
  elements : list A;
  failure : option exception
}.
Arguments elements {A} _.
Arguments failure {A} _.

(** ** The remote service: one canned response per client method *)

Record Service := {
  on_create_model : string -> ModelSpec -> result Operation;
  on_get_operation : string -> result OperationProto;
  on_list_models : string -> string -> Pager Model;
  on_get_model : string -> result Model;
  on_list_model_evaluations : string -> Pager ModelEvaluation;
  on_get_model_evaluation : string -> result ModelEvaluation;
  on_delete_model : string -> result Operation
}.

(** ** What a run leaves behind *)

Inductive method :=
  | CreateModel (parent : string) (model : ModelSpec)
  | GetOperation (operation_full_id : string)
  | ListModels (parent filter : string)
  | GetModel (model_full_id : string)
  | ListModelEvaluations (parent : string)
  | GetModelEvaluation (model_evaluation_full_id : string)
  | DeleteModel (model_full_id : string).

(** A value substituted for [{}] by [str.format], or printed on its own. *)
Inductive value :=
  | VStr (s : string)
  | VFloat (x : float)
  | VStrftime (local : Py.datetime) (format : string)
  | VOperation (o : OperationProto)
  | VEvaluation (e : ModelEvaluation).

Inductive output :=
  | Text (line : string)
  | Format (template : string) (argument : value)
  | Object (v : value).

Inductive event :=
  | ClientOpened
  | Called (m : method)
  | Polled (done : bool)
  | Printed (o : output).

End AutoML.

(* ===================================================================== *)
(** * The commands of the sample *)
(* ===================================================================== *)

Module Sample.

Import AutoML.

(** ** Computations: a log of events and a value or an uncaught exception *)

Definition M (A : Type) : Type := (list event * result A)%type.

Definition ret {A : Type} (a : A) : M A := ([], inr a).

Definition bind {A B : Type} (m : M A) (k : A -> M B) : M B :=
  match m with
  | (log, inl e) => (log, inl e)
  | (log, inr a) => let '(log', r) := k a in (log ++ log', r)
  end.

Definition raise {A : Type} (e : exception) : M A := ([], inl e).
Definition emit (ev : event) : M unit := ([ev], inr tt).
Definition lift {A : Type} (r : result A) : M A := ([], r).

Declare Scope sample_scope.
Delimit Scope sample_scope with sample.
Notation "x <- m ;; k" := (bind m (fun x => k))
  (at level 61, m at next level, right associativity) : sample_scope.
Notation "m ;; k" := (bind m (fun _ => k))
  (at level 61, right associativity) : sample_scope.
Local Open Scope sample_scope.

Definition log_of {A : Type} (m : M A) : list event := fst m.
Definition outcome_of {A : Type} (m : M A) : result A := snd m.

(** [print(...)] *)
Definition print (o : output) : M unit := emit (Printed o).

(** Reading a local variable that may not have been assigned yet. *)
Definition local (variable : string) (v : option string) : M string :=
  match v with
  | Some s => ret s
  | None => raise (UnboundLocalError variable)
  end.

(** [s.split("/")[-1]] *)
Definition last_segment (s : string) : M string :=
  match Py.index_last (Py.split slash s) with
  | Some field => ret field
  | None => raise IndexError
  end.

(** [for x in xs: body], threading the local variables [s] the body assigns *)
Fixpoint for_each {A S : Type} (xs : list A) (s : S) (body : S -> A -> M S)
    : M S :=
  match xs with
  | [] => ret s
  | x :: rest => s' <- body s x ;; for_each rest s' body
  end.

(** [for x in response: body] over a paged response *)
Definition for_response {A S : Type} (response : Pager A) (s : S)
    (body : S -> A -> M S) : M S :=
  s' <- for_each (elements response) s body ;;
  match failure response with
  | Some e => raise e
  | None => ret s'
  end.

(** Modelled from the spec: [operation.result()] belongs to the client
    library, not to the sample.  It is a blocking wait on the result of
    the operation: the caller polls until a poll finds the operation done,
    and then gets its result or the error it raises.  No timeout is set. *)
Fixpoint wait (polls : nat) : M unit :=
  match polls with
  | O => emit (Polled true)
  | S n => emit (Polled false) ;; wait n
  end.

Definition operation_result (op : Operation) : M string :=
  wait (pending op) ;; lift (outcome op).

Definition strftime_format : string := "%Y-%m-%dT%H:%M:%SZ".

Section Commands.

Variable remote : Service.

(** [datetime.fromtimestamp] on the host: the local time of a number of
    seconds since the epoch, or the exception it raises ([ValueError],
    [OverflowError] or [OSError]) when the seconds are out of range for
    the platform.  Which seconds are in range, and which local time they
    give, depends on the platform and on its time zone. *)
Variable fromtimestamp : Z -> result Py.datetime.

(** [automl.AutoMlClient()] *)
Definition AutoMlClient : M Service := emit ClientOpened ;; ret remote.

Definition client_create_model (client : Service) (parent : string)
    (model : ModelSpec) : M Operation :=
  emit (Called (CreateModel parent model)) ;;
  lift (on_create_model client parent model).

Definition client_get_operation (client : Service) (name : string)
    : M OperationProto :=
  emit (Called (GetOperation name)) ;; lift (on_get_operation client name).

Definition client_list_models (client : Service) (parent filter_ : string)
    : M (Pager Model) :=
  emit (Called (ListModels parent filter_)) ;;
  ret (on_list_models client parent filter_).

Definition client_get_model (client : Service) (name : string) : M Model :=
  emit (Called (GetModel name)) ;; lift (on_get_model client name).

Definition client_list_model_evaluations (client : Service) (parent : string)
    : M (Pager ModelEvaluation) :=
  emit (Called (ListModelEvaluations parent)) ;;
  ret (on_list_model_evaluations client parent).

Definition client_get_model_evaluation (client : Service) (name : string)
    : M ModelEvaluation :=
  emit (Called (GetModelEvaluation name)) ;;
  lift (on_get_model_evaluation client name).

Definition client_delete_model (client : Service) (name : string)
    : M Operation :=
  emit (Called (DeleteModel name)) ;; lift (on_delete_model client name).

(** Lines 28-56 *)
Definition create_model (project_id compute_region dataset_id model_name : string)
    : M unit :=
  client <- AutoMlClient ;;
  let project_location := location_path project_id compute_region in
  let my_model :=
    {| spec_display_name := model_name; spec_dataset_id := dataset_id |} in
  response <- client_create_model client project_location my_model ;;
  print (Format "Training operation name: {}"
           (VStr (operation_name (operation response)))) ;;
  print (Text "Training started...").

(** Lines 59-77 *)
Definition get_operation_status (operation_full_id : string) : M unit :=
  client <- AutoMlClient ;;
  response <- client_get_operation client operation_full_id ;;
  print (Format "Operation status: {}" (VOperation response)).

(** Lines 102-106 and 138-142: the deployment state shown for a model *)
Definition retrieve_deployment_state (state : Z) : string :=
  if Z.eqb state DeploymentState.DEPLOYED then "deployed" else "undeployed".

(** Lines 109-113 and 145-149: display the model information.  The
    creation time is converted after the third line has been printed; an
    exception of the conversion ends the command there. *)
Definition display_model (model : Model) (deployment_state : string) : M unit :=
  print (Format "Model name: {}" (VStr (name model))) ;;
  model_id <- last_segment (name model) ;;
  print (Format "Model id: {}" (VStr model_id)) ;;
  print (Format "Model display name: {}" (VStr (display_name model))) ;;
  local_time <- lift (fromtimestamp (seconds (create_time model))) ;;
  print (Format "Model create time: {}"
           (VStrftime local_time strftime_format)) ;;
  print (Format "Model deployment state: {}" (VStr deployment_state)).

(** Lines 80-115 *)
Definition list_models (project_id compute_region filter_ : string) : M unit :=
  client <- AutoMlClient ;;
  let project_location := location_path project_id compute_region in
  response <- client_list_models client project_location filter_ ;;
  print (Text "List of models:") ;;
  for_response response tt (fun _ model =>
    let deployment_state :=
      retrieve_deployment_state (AutoML.deployment_state model) in
    display_model model deployment_state).

(** Lines 118-151 *)
Definition get_model (project_id compute_region model_id : string) : M unit :=
  client <- AutoMlClient ;;
  let model_full_id := model_path project_id compute_region model_id in
  model <- client_get_model client model_full_id ;;
  let deployment_state :=
    retrieve_deployment_state (AutoML.deployment_state model) in
  display_model model deployment_state.

(** Lines 154-176 *)
Definition list_model_evaluations (project_id compute_region model_id : string)
    : M unit :=
  client <- AutoMlClient ;;
  let model_full_id := model_path project_id compute_region model_id in
  response <- client_list_model_evaluations client model_full_id ;;
  print (Text "List of model evaluations:") ;;
  for_response response tt (fun _ element =>
    print (Object (VEvaluation element))).

(** Lines 179-206 *)
Definition get_model_evaluation
    (project_id compute_region model_id model_evaluation_id : string) : M unit :=
  client <- AutoMlClient ;;
  let model_evaluation_full_id :=
    model_evaluation_path project_id compute_region model_id
      model_evaluation_id in
  response <- client_get_model_evaluation client model_evaluation_full_id ;;
  let metrics := text_sentiment_evaluation_metrics response in
  print (Format "Sentiment model precision: {}" (VFloat (precision metrics))) ;;
  print (Format "Sentiment model recall: {}" (VFloat (recall metrics))) ;;
  print (Format "Sentiment model f1 score: {}" (VFloat (f1_score metrics))).

(** [round(x * 100, 2)] *)
Definition percentage (x : float) : float :=
  Float64.round (Float64.mul x (Float64.of_int 100)) 2.

(** Lines 228-232: the scan for the evaluation of the overall model.  The
    local variable [model_evaluation_id] is unassigned before the loop. *)
Definition scan_body (model_evaluation_id : option string)
    (element : ModelEvaluation) : M (option string) :=
  if Py.not_str (annotation_spec_id element) then
    field <- last_segment (evaluation_name element) ;;
    ret (Some field)
  else ret model_evaluation_id.

(** Lines 209-280 *)
Definition display_evaluation (project_id compute_region model_id : string)
    : M unit :=
  client <- AutoMlClient ;;
  let model_full_id := model_path project_id compute_region model_id in
  response <- client_list_model_evaluations client model_full_id ;;
  assigned <- for_response response None scan_body ;;
  model_evaluation_id <- local "model_evaluation_id" assigned ;;
  let model_evaluation_full_id :=
    model_evaluation_path project_id compute_region model_id
      model_evaluation_id in
  model_evaluation <-
    client_get_model_evaluation client model_evaluation_full_id ;;
  let sentiment_metrics := text_sentiment_evaluation_metrics model_evaluation in
  print (Format "Model Precision: {}%"
           (VFloat (percentage (precision sentiment_metrics)))) ;;
  print (Format "Model Recall: {}%"
           (VFloat (percentage (recall sentiment_metrics)))) ;;
  print (Format "Model F1 score: {}%"
           (VFloat (percentage (f1_score sentiment_metrics)))) ;;
  print (Format "Model absolute error: {}%"
           (VFloat (percentage (mean_absolute_error sentiment_metrics)))) ;;
  print (Format "Model mean squared error: {}%"
           (VFloat (percentage (mean_squared_error sentiment_metrics)))) ;;
  print (Format "Model linear kappa: {}%"
           (VFloat (percentage (linear_kappa sentiment_metrics)))) ;;
  print (Format "Model quadratic kappa: {}%"
           (VFloat (percentage (quadratic_kappa sentiment_metrics)))).

(** Lines 283-304 *)
Definition delete_model (project_id compute_region model_id : string) : M unit :=
  client <- AutoMlClient ;;
  let model_full_id := model_path project_id compute_region model_id in
  response <- client_delete_model client model_full_id ;;
  deleted <- operation_result response ;;
  print (Format "Model deleted. {}" (VStr deleted)).

(** ** The entry point (lines 307-385) *)

(** The parsed command line: [args.command] with the arguments of its
    sub-parser. *)
Inductive command :=
  | create_model_cmd (dataset_id model_name : string)
  | get_operation_status_cmd (operation_full_id : string)
  | list_models_cmd (filter_ : string)
  | get_model_cmd (model_id : string)
  | list_model_evaluations_cmd (model_id : string)
  | get_model_evaluation_cmd (model_id model_evaluation_id : string)
  | display_evaluation_cmd (model_id : string)
  | delete_model_cmd (model_id : string).

(** [os.environ[key]] *)
Definition environ_get (environ : string -> option string) (key : string)
    : M string :=
  match environ key with
  | Some v => ret v
  | None => raise (KeyError key)
  end.

Definition run_command (project_id compute_region : string) (args : command)
    : M unit :=
  match args with
  | create_model_cmd dataset_id model_name =>
      create_model project_id compute_region dataset_id model_name
  | get_operation_status_cmd operation_full_id =>
      get_operation_status operation_full_id
  | list_models_cmd filter_ => list_models project_id compute_region filter_
  | get_model_cmd model_id => get_model project_id compute_region model_id
  | list_model_evaluations_cmd model_id =>
      list_model_evaluations project_id compute_region model_id
  | get_model_evaluation_cmd model_id model_evaluation_id =>
      get_model_evaluation project_id compute_region model_id
        model_evaluation_id
  | display_evaluation_cmd model_id =>
      display_evaluation project_id compute_region model_id
  | delete_model_cmd model_id =>
      delete_model project_id compute_region model_id
  end.

Definition main (environ : string -> option string) (args : command)
    : M unit :=
  project_id <- environ_get environ "PROJECT_ID" ;;
  compute_region <- environ_get environ "REGION_NAME" ;;
  run_command project_id compute_region args.

(** The status the process exits with: 0 when the script runs to its end,
    1 when an exception reaches the top level. *)
Definition exit_status {A : Type} (run : M A) : Z :=
  match outcome_of run with
  | inr _ => 0%Z
  | inl _ => 1%Z
  end.

End Commands.

End Sample.

(* ===================================================================== *)
(** * Vocabulary for the statements *)
(* ===================================================================== *)

Module Spec.

Import AutoML Sample.

(** An evaluation record is the overall one when it names no annotation
    class. *)
Definition overall (e : ModelEvaluation) : bool :=
  Py.not_str (annotation_spec_id e).

(** The last overall record of a list, in iteration order. *)
Definition last_overall (evals : list ModelEvaluation) : option ModelEvaluation :=
  Py.index_last (filter overall evals).

(** A response whose pages all arrive. *)
Definition complete {A : Type} (xs : list A) : Pager A :=
  {| elements := xs; failure := None |}.

(** Counting in a log. *)
Definition is_call (ev : event) : bool :=
  match ev with Called _ => true | _ => false end.

Definition is_open (ev : event) : bool :=
  match ev with ClientOpened => true | _ => false end.

Definition is_print (ev : event) : bool :=
  match ev with Printed _ => true | _ => false end.

Definition calls (log : list event) : nat := List.length (filter is_call log).
Definition clients (log : list event) : nat := List.length (filter is_open log).

(** Does the scan of [display_evaluation] reach the fetch?  It does when
    every page arrived and some record is the overall one. *)
Definition reaches_fetch (response : Pager ModelEvaluation) : bool :=
  match failure response with
  | Some _ => false
  | None => existsb overall (elements response)
  end.

(** The seven lines [display_evaluation] prints for a metrics record. *)
Definition displayed_metrics (m : TextSentimentEvaluationMetrics) : list event :=
  [ Printed (Format "Model Precision: {}%" (VFloat (percentage (precision m))));
    Printed (Format "Model Recall: {}%" (VFloat (percentage (recall m))));
    Printed (Format "Model F1 score: {}%" (VFloat (percentage (f1_score m))));
    Printed (Format "Model absolute error: {}%"
               (VFloat (percentage (mean_absolute_error m))));
    Printed (Format "Model mean squared error: {}%"
               (VFloat (percentage (mean_squared_error m))));
    Printed (Format "Model linear kappa: {}%"
               (VFloat (percentage (linear_kappa m))));
    Printed (Format "Model quadratic kappa: {}%"
               (VFloat (percentage (quadratic_kappa m)))) ].

(** The three lines shown for a model whose id is [model_id] before its
    creation time is converted. *)
Definition displayed_model_start (model : Model) (model_id : string)
    : list event :=
  [ Printed (Format "Model name: {}" (VStr (name model)));
    Printed (Format "Model id: {}" (VStr model_id));
    Printed (Format "Model display name: {}" (VStr (display_name model))) ].

(** The two lines shown after them, once the creation time has been
    converted to the local time [local_time]. *)
Definition displayed_model_end (model : Model) (local_time : Py.datetime)
    : list event :=
  [ Printed (Format "Model create time: {}"
               (VStrftime local_time strftime_format));
    Printed (Format "Model deployment state: {}"
               (VStr (retrieve_deployment_state (deployment_state model)))) ].

(** The last field of [s.split("/")]. *)
Definition segment (s : string) : string :=
  match Py.index_last (Py.split slash s) with
  | Some field => field
  | None => s
  end.

(** The id [display_evaluation] derives from an evaluation record. *)
Definition evaluation_id (e : ModelEvaluation) : string :=
  segment (evaluation_name e).

(** [id] is the part of [s] after its last separator (all of [s] when it
    has none). *)
Definition after_last_slash (s id : string) : Prop :=
  Py.contains slash id = false /\
  (s = id \/ exists before, s = (before ++ String slash id)%string).

(** The lines [display_model] leaves for a model, and the exception that
    stops it when the creation time cannot be converted. *)
Definition displayed_model (fromtimestamp : Z -> result Py.datetime)
    (model : Model) : list event * option exception :=
  match fromtimestamp (seconds (create_time model)) with
  | inl exn => (displayed_model_start model (segment (name model)), Some exn)
  | inr local_time =>
      (displayed_model_start model (segment (name model))
         ++ displayed_model_end model local_time,
       None)
  end.

(** The lines left by showing the models of a list one after the other,
    up to the first whose creation time cannot be converted. *)
Fixpoint displayed_models (fromtimestamp : Z -> result Py.datetime)
    (models : list Model) : list event * option exception :=
  match models with
  | [] => ([], None)
  | model :: rest =>
      match displayed_model fromtimestamp model with
      | (lines, Some exn) => (lines, Some exn)
      | (lines, None) =>
          let '(more, stop) := displayed_models fromtimestamp rest in
          (lines ++ more, stop)
      end
  end.

(** The float a printed line shows: [float(text)] of the text [str.format]
    put in place of [{}].  The text of a float is the shortest decimal
    that reads back as the same float, so reading it gives the float
    itself. *)
Definition shown_float (o : output) : option float :=
  match o with
  | Format _ (VFloat x) => Some x
  | _ => None
  end.

(** Neither an infinity nor NaN. *)
Definition is_finite (x : float) : bool :=
  match x with
  | S754_zero _ | S754_finite _ _ _ => true
  | _ => false
  end.

(** The float [0.01]. *)
Definition cent : float := Float64.of_ratio false 1 100.

(** More counting in a log. *)
Definition is_poll (ev : event) : bool :=
  match ev with Polled _ => true | _ => false end.

Definition prints (log : list event) : nat := List.length (filter is_print log).
Definition polls (log : list event) : nat := List.length (filter is_poll log).

(** The floats a log shows, in the order they were printed. *)
Definition shown_floats (log : list event) : list float :=
  flat_map (fun ev =>
              match ev with
              | Printed o =>
                  match shown_float o with
                  | Some x => [x]
                  | None => []
                  end
              | _ => []
              end) log.

(** The client method a command calls first, with its arguments. *)
Definition first_request (project_id compute_region : string) (args : command)
    : method :=
  match args with
  | create_model_cmd dataset_id model_name =>
      CreateModel (location_path project_id compute_region)
        {| spec_display_name := model_name; spec_dataset_id := dataset_id |}
  | get_operation_status_cmd operation_full_id =>
      GetOperation operation_full_id
  | list_models_cmd filter_ =>
      ListModels (location_path project_id compute_region) filter_
  | get_model_cmd model_id =>
      GetModel (model_path project_id compute_region model_id)
  | list_model_evaluations_cmd model_id =>
      ListModelEvaluations (model_path project_id compute_region model_id)
  | get_model_evaluation_cmd model_id model_evaluation_id =>
      GetModelEvaluation
        (model_evaluation_path project_id compute_region model_id
           model_evaluation_id)
  | display_evaluation_cmd model_id =>
      ListModelEvaluations (model_path project_id compute_region model_id)
  | delete_model_cmd model_id =>
      DeleteModel (model_path project_id compute_region model_id)
  end.

Definition error_of {A : Type} (r : result A) : option exception :=
  match r with
  | inl exn => Some exn
  | inr _ => None
  end.

(** The error the first call of a command raises, for the commands whose
    first call answers at once (a listing call only hands out an
    iterator). *)
Definition call_error (remote : Service) (project_id compute_region : string)
    (args : command) : option exception :=
  match args with
  | create_model_cmd dataset_id model_name =>
      error_of (on_create_model remote
                  (location_path project_id compute_region)
                  {| spec_display_name := model_name;
                     spec_dataset_id := dataset_id |})
  | get_operation_status_cmd operation_full_id =>
      error_of (on_get_operation remote operation_full_id)
  | get_model_cmd model_id =>
      error_of (on_get_model remote
                  (model_path project_id compute_region model_id))
  | get_model_evaluation_cmd model_id model_evaluation_id =>
      error_of (on_get_model_evaluation remote
                  (model_evaluation_path project_id compute_region model_id
                     model_evaluation_id))
  | delete_model_cmd model_id =>
      error_of (on_delete_model remote
                  (model_path project_id compute_region model_id))
  | list_models_cmd _ | list_model_evaluations_cmd _
  | display_evaluation_cmd _ => None
  end.

End Spec.

(* ===================================================================== *)
(** * A small remote service to run the commands against *)
(* ===================================================================== *)

Module Fake.

Import AutoML.

Definition half : float := Float64.of_ratio false 5 10.

Definition metrics (p r f : float) : TextSentimentEvaluationMetrics :=
  {| precision := p; recall := r; f1_score := f;
     mean_absolute_error := Float64.of_ratio false 1 4;
     mean_squared_error := Float64.of_ratio false 1 8;
     linear_kappa := Float64.of_ratio false 3 4;
     quadratic_kappa := Float64.of_ratio false 7 8 |}.

Definition model_name : string := "projects/p/locations/us-central1/models/ICN123".

Definition icn123 : Model :=
  {| name := model_name; display_name := "sentiment";
     create_time := {| seconds := 1560000000 |};
     deployment_state := DeploymentState.DEPLOYED |}.

Definition per_class : ModelEvaluation :=
  {| evaluation_name := model_name ++ "/modelEvaluations/111";
     annotation_spec_id := "7";
     text_sentiment_evaluation_metrics :=
       metrics (Float64.single 9 10) half half |}.

Definition whole : ModelEvaluation :=
  {| evaluation_name := model_name ++ "/modelEvaluations/222";
     annotation_spec_id := "";
     text_sentiment_evaluation_metrics :=
       metrics half (Float64.single 2 3) (Float64.single 4 7) |}.

Definition whole_again : ModelEvaluation :=
  {| evaluation_name := model_name ++ "/modelEvaluations/333";
     annotation_spec_id := "";
     text_sentiment_evaluation_metrics :=
       metrics (Float64.single 1 3) half half |}.

Definition deletion : Operation :=
  {| operation :=
       {| operation_name := "projects/p/locations/us-central1/operations/ICN9";
          operation_done := false |};
     pending := 3;
     outcome := inr "" |}.

Definition not_found {A : Type} : result A := inl (GoogleAPICallError "404 not found").

(** A service holding one model and the given evaluation records. *)
Definition service (evals : list ModelEvaluation) : Service :=
  {| on_create_model := fun _ _ => inr deletion;
     on_get_operation := fun _ => not_found;
     on_list_models := fun _ _ => Spec.complete [icn123];
     on_get_model := fun n => if String.eqb n model_name then inr icn123 else not_found;
     on_list_model_evaluations := fun _ => Spec.complete evals;
     on_get_model_evaluation := fun n =>
       match find (fun e => String.eqb (evaluation_name e) n) evals with
       | Some e => inr e
       | None => not_found
       end;
     on_delete_model := fun n =>
       if String.eqb n model_name then inr deletion else not_found |}.

Definition class_then_whole : list ModelEvaluation := [per_class; whole].
Definition two_wholes : list ModelEvaluation := [whole; per_class; whole_again].

Definition environ (key : string) : option string :=
  if String.eqb key "PROJECT_ID" then Some "p"
  else if String.eqb key "REGION_NAME" then Some "us-central1"
  else None.

(** A service on which every call fails and every listing breaks off
    after the first page. *)
Definition broken (models : list Model) (evals : list ModelEvaluation)
    : Service :=
  {| on_create_model := fun _ _ => not_found;
     on_get_operation := fun _ => not_found;
     on_list_models := fun _ _ =>
       {| elements := models;
          failure := Some (GoogleAPICallError "503 unavailable") |};
     on_get_model := fun _ => not_found;
     on_list_model_evaluations := fun _ =>
       {| elements := evals;
          failure := Some (GoogleAPICallError "503 unavailable") |};
     on_get_model_evaluation := fun _ => not_found;
     on_delete_model := fun _ =>
       inr {| operation := operation deletion;
              pending := 2;
              outcome := inl (GoogleAPICallError "409 deletion rejected") |} |}.

(** A host in UTC that converts the seconds of the years 1970 to 9999 and
    raises [ValueError] on the others. *)
Definition civil (days : Z) : Z * Z * Z :=
  let z := (days + 719468)%Z in
  let era := (z / 146097)%Z in
  let doe := (z - era * 146097)%Z in
  let yoe := ((doe - doe / 1460 + doe / 36524 - doe / 146096) / 365)%Z in
  let doy := (doe - (365 * yoe + yoe / 4 - yoe / 100))%Z in
  let mp := ((5 * doy + 2) / 153)%Z in
  let d := (doy - (153 * mp + 2) / 5 + 1)%Z in
  let m := (if (mp <? 10)%Z then mp + 3 else mp - 9)%Z in
  let y := (yoe + era * 400 + (if (m <=? 2)%Z then 1 else 0))%Z in
  (y, m, d).

Definition utc (seconds : Z) : result Py.datetime :=
  if ((0 <=? seconds) && (seconds <=? 253402300799))%Z then
    let '(y, m, d) := civil (seconds / 86400) in
    let rest := (seconds mod 86400)%Z in
    inr {| Py.year := y; Py.month := m; Py.day := d;
           Py.hour := (rest / 3600)%Z;
           Py.minute := (rest mod 3600 / 60)%Z;
           Py.second := (rest mod 60)%Z |}
  else inl (ValueError "year is out of range").

(** A model whose creation time no host converts. *)
Definition timeless : Model :=
  {| name := "projects/p/locations/us-central1/models/ICN999";
     display_name := "broken clock";
     create_time := {| seconds := 9223372036854775807 |};
     deployment_state := DeploymentState.UNDEPLOYED |}.

(** A service that lists [icn123], [timeless] and [icn123] again, and
    returns [timeless] for any model id. *)
Definition dated : Service :=
  {| on_create_model := fun _ _ => not_found;
     on_get_operation := fun _ => not_found;
     on_list_models := fun _ _ => Spec.complete [icn123; timeless; icn123];
     on_get_model := fun _ => inr timeless;
     on_list_model_evaluations := fun _ => Spec.complete [];
     on_get_model_evaluation := fun _ => not_found;
     on_delete_model := fun _ => not_found |}.

Definition no_environ (key : string) : option string := None.

Definition project_only (key : string) : option string :=
  if String.eqb key "PROJECT_ID" then Some "p" else None.

End Fake.

(* ===================================================================== *)
(** * Properties *)
(* ===================================================================== *)

Import AutoML Sample Spec.
Local Open Scope sample_scope.

(** ** Computations *)

Lemma bind_ret {A B : Type} (a : A) (k : A -> M B) :
  bind (ret a) k = k a.
Proof. unfold bind, ret. destruct (k a) as [log r]. reflexivity. Qed.

Lemma bind_raise {A B : Type} (e : exception) (k : A -> M B) :
  bind (raise e) k = raise e.
Proof. reflexivity. Qed.

Lemma bind_emit {B : Type} (ev : event) (k : unit -> M B) :
  bind (emit ev) k = (ev :: fst (k tt), snd (k tt)).
Proof. unfold bind, emit. destruct (k tt) as [log r]. reflexivity. Qed.

Lemma bind_log {A B : Type} (log : list event) (a : A) (k : A -> M B) :
  bind (log, inr a) k = (log ++ fst (k a), snd (k a)).
Proof. unfold bind. destruct (k a) as [log' r]. reflexivity. Qed.

(** ** Strings *)

Lemma append_assoc (a b c : string) :
  ((a ++ b) ++ c = a ++ (b ++ c))%string.
Proof. induction a as [|x a IH]; simpl; [reflexivity | rewrite IH; reflexivity]. Qed.

(** ** Splitting at the separator *)

Lemma index_last_cons {A : Type} (x : A) (xs : list A) :
  Py.index_last (x :: xs)
  = Some (match Py.index_last xs with Some y => y | None => x end).
Proof.
  revert x. induction xs as [|y ys IH]; intros x.
  - reflexivity.
  - change (Py.index_last (x :: y :: ys)) with (Py.index_last (y :: ys)).
    rewrite (IH y). reflexivity.
Qed.

Lemma index_last_none {A : Type} (xs : list A) :
  Py.index_last xs = None -> xs = [].
Proof.
  destruct xs as [|x xs]; [reflexivity|].
  rewrite index_last_cons. discriminate.
Qed.

Lemma split_fields (s : string) :
  exists field fields, Py.split slash s = field :: fields.
Proof.
  destruct s as [|c rest]; simpl.
  - eauto.
  - destruct (Ascii.eqb c slash); [eauto|].
    destruct (Py.split slash rest); eauto.
Qed.

Lemma join_split (s : string) : Py.join slash (Py.split slash s) = s.
Proof.
  induction s as [|c rest IH]; simpl.
  - reflexivity.
  - destruct (split_fields rest) as (f & fs & Hsplit).
    rewrite Hsplit in IH |- *.
    destruct (Ascii.eqb c slash) eqn:Hc.
    + apply Ascii.eqb_eq in Hc. subst c.
      change (Py.join slash (EmptyString :: f :: fs))
        with (String slash (Py.join slash (f :: fs))).
      rewrite IH. reflexivity.
    + destruct fs as [|g gs].
      * simpl in IH |- *. rewrite IH. reflexivity.
      * change (Py.join slash (String c f :: g :: gs))
          with (String c (Py.join slash (f :: g :: gs))).
        rewrite IH. reflexivity.
Qed.

Lemma split_fields_clean (s : string) :
  Forall (fun field => Py.contains slash field = false) (Py.split slash s).
Proof.
  induction s as [|c rest IH]; simpl.
  - constructor; [reflexivity | constructor].
  - destruct (Ascii.eqb c slash) eqn:Hc.
    + constructor; [reflexivity | exact IH].
    + destruct (Py.split slash rest) as [|f fs].
      * constructor; [simpl; rewrite Hc; reflexivity | constructor].
      * inversion IH as [|? ? Hf Hfs]; subst.
        constructor; [simpl; rewrite Hc, Hf; reflexivity | exact Hfs].
Qed.

Lemma join_last (fields : list string) (id : string) :
  Py.index_last fields = Some id ->
  Py.join slash fields = id \/
  exists before, Py.join slash fields = (before ++ String slash id)%string.
Proof.
  induction fields as [|f fs IH]; intros Hlast.
  - discriminate.
  - destruct fs as [|g gs].
    + injection Hlast as ->. left. reflexivity.
    + change (Py.index_last (f :: g :: gs))
        with (Py.index_last (g :: gs)) in Hlast.
      change (Py.join slash (f :: g :: gs))
        with (f ++ String slash (Py.join slash (g :: gs)))%string.
      right. destruct (IH Hlast) as [Hwhole | [before Hbefore]].
      * exists f. rewrite Hwhole. reflexivity.
      * exists (f ++ String slash before)%string. rewrite Hbefore.
        rewrite append_assoc. reflexivity.
Qed.

Lemma segment_after_last_slash (s : string) :
  after_last_slash s (segment s).
Proof.
  unfold segment, after_last_slash.
  destruct (split_fields s) as (f & fs & Hsplit).
  destruct (Py.index_last (Py.split slash s)) as [id|] eqn:Hlast.
  - split.
    + pose proof (split_fields_clean s) as Hclean.
      rewrite Forall_forall in Hclean. apply Hclean.
      clear - Hlast. induction (Py.split slash s) as [|x xs IH].
      * discriminate.
      * destruct xs as [|y ys].
        -- injection Hlast as ->. left. reflexivity.
        -- right. apply IH. exact Hlast.
    + pose proof (join_last _ _ Hlast) as Hjoin.
      rewrite join_split in Hjoin. exact Hjoin.
  - rewrite Hsplit in Hlast. apply index_last_none in Hlast. discriminate.
Qed.

Lemma last_segment_ret (s : string) : last_segment s = ret (segment s).
Proof.
  unfold last_segment, segment.
  destruct (split_fields s) as (f & fs & Hsplit). rewrite Hsplit.
  rewrite index_last_cons. reflexivity.
Qed.

(** ** The scan of [display_evaluation] *)

Lemma last_overall_cons (e : ModelEvaluation) (evals : list ModelEvaluation) :
  last_overall (e :: evals)
  = if overall e
    then Some (match last_overall evals with Some e' => e' | None => e end)
    else last_overall evals.
Proof.
  unfold last_overall. simpl. destruct (overall e); [|reflexivity].
  apply index_last_cons.
Qed.

Lemma scan_run (evals : list ModelEvaluation) (assigned : option string) :
  for_each evals assigned scan_body
  = ret (match last_overall evals with
         | Some e => Some (evaluation_id e)
         | None => assigned
         end).
Proof.
  revert assigned. induction evals as [|e evals IH]; intros assigned.
  - reflexivity.
  - simpl for_each. rewrite last_overall_cons. unfold scan_body at 1.
    fold (overall e). destruct (overall e).
    + rewrite last_segment_ret, !bind_ret, IH.
      destruct (last_overall evals); reflexivity.
    + rewrite bind_ret. apply IH.
Qed.

Lemma last_overall_none (evals : list ModelEvaluation) :
  (forall e, In e evals -> annotation_spec_id e <> EmptyString) ->
  last_overall evals = None.
Proof.
  induction evals as [|e evals IH]; intros Hall.
  - reflexivity.
  - rewrite last_overall_cons.
    assert (He : overall e = false).
    { unfold overall. destruct (annotation_spec_id e) eqn:Hid; [|reflexivity].
      exfalso. apply (Hall e); [left; reflexivity | exact Hid]. }
    rewrite He. apply IH. intros e' Hin. apply Hall. right. exact Hin.
Qed.

Lemma overall_empty (e : ModelEvaluation) :
  overall e = true <-> annotation_spec_id e = EmptyString.
Proof.
  unfold overall. destruct (annotation_spec_id e); simpl; split; congruence.
Qed.

Lemma last_overall_split (before after : list ModelEvaluation)
    (e : ModelEvaluation) :
  overall e = true ->
  (forall e', In e' after -> annotation_spec_id e' <> EmptyString) ->
  last_overall (before ++ e :: after) = Some e.
Proof.
  intros He Hafter. induction before as [|b before IH]; simpl app.
  - rewrite last_overall_cons, He, (last_overall_none _ Hafter). reflexivity.
  - rewrite last_overall_cons, IH. destruct (overall b); reflexivity.
Qed.

Lemma last_overall_some (evals : list ModelEvaluation) (e : ModelEvaluation) :
  last_overall evals = Some e ->
  overall e = true /\
  exists before after,
    evals = before ++ e :: after /\
    forall e', In e' after -> annotation_spec_id e' <> EmptyString.
Proof.
  revert e. induction evals as [|x evals IH]; intros e Hlast.
  - discriminate.
  - rewrite last_overall_cons in Hlast.
    destruct (last_overall evals) as [e'|] eqn:Hrest.
    + assert (He : e' = e) by (destruct (overall x); congruence). subst e'.
      destruct (IH e eq_refl) as (Hov & before & after & Heq & Hafter).
      split; [exact Hov|]. exists (x :: before), after.
      split; [rewrite Heq; reflexivity | exact Hafter].
    + destruct (overall x) eqn:Hx; [|discriminate].
      injection Hlast as ->. split; [exact Hx|].
      exists [], evals. split; [reflexivity|].
      intros e' Hin Hempty.
      assert (Hnone : filter overall evals = []).
      { apply index_last_none. exact Hrest. }
      assert (Hmem : In e' (filter overall evals)).
      { apply filter_In. split; [exact Hin | apply overall_empty; exact Hempty]. }
      rewrite Hnone in Hmem. exact Hmem.
Qed.

Lemma last_overall_exists (evals : list ModelEvaluation) :
  (exists e, In e evals /\ annotation_spec_id e = EmptyString) ->
  exists e, last_overall evals = Some e.
Proof.
  intros (e & Hin & Hempty).
  destruct (last_overall evals) as [e'|] eqn:Hlast; [eauto|].
  apply index_last_none in Hlast.
  assert (Hmem : In e (filter overall evals)).
  { apply filter_In. split; [exact Hin | apply overall_empty; exact Hempty]. }
  rewrite Hlast in Hmem. destruct Hmem.
Qed.

(** What a run of [display_evaluation] is, for a response whose pages all
    arrive. *)
Lemma display_evaluation_run (remote : Service)
    (project_id compute_region model_id : string)
    (evals : list ModelEvaluation) :
  on_list_model_evaluations remote
    (model_path project_id compute_region model_id) = complete evals ->
  display_evaluation remote project_id compute_region model_id
  = let listing :=
      Called (ListModelEvaluations
                (model_path project_id compute_region model_id)) in
    match last_overall evals with
    | None =>
        ([ClientOpened; listing],
         inl (UnboundLocalError "model_evaluation_id"))
    | Some e =>
        let full_id :=
          model_evaluation_path project_id compute_region model_id
            (evaluation_id e) in
        match on_get_model_evaluation remote full_id with
        | inl exn =>
            ([ClientOpened; listing; Called (GetModelEvaluation full_id)],
             inl exn)
        | inr fetched =>
            ([ClientOpened; listing; Called (GetModelEvaluation full_id)]
               ++ displayed_metrics (text_sentiment_evaluation_metrics fetched),
             inr tt)
        end
    end.
Proof.
  intros Hlist. unfold display_evaluation, AutoMlClient,
    client_list_model_evaluations, for_response.
  cbn [emit ret bind fst snd]. rewrite Hlist.
  cbn [complete elements failure]. rewrite scan_run, !bind_ret.
  destruct (last_overall evals) as [e|]; [|reflexivity].
  unfold local, client_get_model_evaluation. rewrite bind_ret.
  destruct (on_get_model_evaluation remote
              (model_evaluation_path project_id compute_region model_id
                 (evaluation_id e))) as [exn|fetched];
    reflexivity.
Qed.

(** ** [display_evaluation] *)

(** Percentages on two grids of metrics, by computation. *)

Lemma same_eq (x y : float) : Float64.same x y = true -> x = y.
Proof.
  destruct x as [s | s | | s m e], y as [s' | s' | | s' m' e'];
    cbn; try discriminate; try reflexivity; intros H.
  - apply Bool.eqb_prop in H. subst. reflexivity.
  - apply Bool.eqb_prop in H. subst. reflexivity.
  - apply andb_prop in H. destruct H as [H He].
    apply andb_prop in H. destruct H as [Hs Hm].
    apply Bool.eqb_prop in Hs. apply Pos.eqb_eq in Hm. apply Z.eqb_eq in He.
    subst. reflexivity.
Qed.

Lemma on_grid (P : Z -> bool) (size : nat) :
  forallb P (map Z.of_nat (seq 1 size)) = true ->
  forall n, (0 < n <= Z.of_nat size)%Z -> P n = true.
Proof.
  intros Hall n Hn. rewrite forallb_forall in Hall. apply Hall.
  apply in_map_iff. exists (Z.to_nat n). split; [lia|].
  apply in_seq. lia.
Qed.

(** A metric given to three decimals, as a binary32 number: [n / 1000] is
    shown as the float nearest to [n / 10]. *)
Lemma percentage_of_thousandths (n : Z) :
  (0 < n <= 1000)%Z ->
  Float64.round (Float64.mul (Float64.single n 1000) (Float64.of_int 100)) 2
  = Float64.of_ratio false n 10.
Proof.
  intros Hn. apply same_eq.
  apply (on_grid
           (fun n => Float64.same
                       (Float64.round
                          (Float64.mul (Float64.single n 1000)
                             (Float64.of_int 100)) 2)
                       (Float64.of_ratio false n 10)) 1000);
    [vm_compute; reflexivity | exact Hn].
Qed.

(** A metric that is a multiple of [1/1024], which binary32 holds exactly:
    [n / 1024] is shown as the float nearest to the hundredth nearest to
    [100 * n / 1024], a tie going to the even hundredth. *)
Lemma percentage_of_dyadic (n : Z) :
  (0 < n <= 1024)%Z ->
  Float64.round (Float64.mul (Float64.single n 1024) (Float64.of_int 100)) 2
  = Float64.of_ratio false (Float64.rne_div (100 * 100 * n) 1024) 100.
Proof.
  intros Hn. apply same_eq.
  apply (on_grid
           (fun n => Float64.same
                       (Float64.round
                          (Float64.mul (Float64.single n 1024)
                             (Float64.of_int 100)) 2)
                       (Float64.of_ratio false
                          (Float64.rne_div (100 * 100 * n) 1024) 100)) 1024);
    [vm_compute; reflexivity | exact Hn].
Qed.

(** C1: when the evaluation list (all pages received) holds a record whose
    [annotation_spec_id] is empty, [display_evaluation] takes the id of
    such a record (the last one, so the only one when there is just one),
    fetches the evaluation of that id, and prints its precision, recall
    and F1 score, each as [round(x * 100, 2)], followed by the other four
    metrics.  What [round(x * 100, 2)] is, on two grids of metrics: a
    metric [n / 1000] is shown as [n / 10], and a metric [n / 1024] as
    [100 * n / 1024] rounded to the nearest hundredth. *)
Theorem display_evaluation_reports_overall
    (remote : Service) (project_id compute_region model_id : string)
    (evals : list ModelEvaluation) :
  on_list_model_evaluations remote
    (model_path project_id compute_region model_id) = complete evals ->
  (exists e, In e evals /\ annotation_spec_id e = EmptyString) ->
  (exists e before after,
    evals = before ++ e :: after /\
    annotation_spec_id e = EmptyString /\
    (forall e', In e' after -> annotation_spec_id e' <> EmptyString) /\
    after_last_slash (evaluation_name e) (evaluation_id e) /\
    let full_id :=
      model_evaluation_path project_id compute_region model_id
        (evaluation_id e) in
    let requests :=
      [ClientOpened;
       Called (ListModelEvaluations
                 (model_path project_id compute_region model_id));
       Called (GetModelEvaluation full_id)] in
    (forall exn,
        on_get_model_evaluation remote full_id = inl exn ->
        display_evaluation remote project_id compute_region model_id
        = (requests, inl exn)) /\
    (forall fetched,
        on_get_model_evaluation remote full_id = inr fetched ->
        let m := text_sentiment_evaluation_metrics fetched in
        display_evaluation remote project_id compute_region model_id
        = (requests
             ++ [Printed (Format "Model Precision: {}%"
                   (VFloat (Float64.round
                      (Float64.mul (precision m) (Float64.of_int 100)) 2)));
                 Printed (Format "Model Recall: {}%"
                   (VFloat (Float64.round
                      (Float64.mul (recall m) (Float64.of_int 100)) 2)));
                 Printed (Format "Model F1 score: {}%"
                   (VFloat (Float64.round
                      (Float64.mul (f1_score m) (Float64.of_int 100)) 2)))]
             ++ skipn 3 (displayed_metrics m),
           inr tt))) /\
  (forall n,
      (0 < n <= 1000)%Z ->
      Float64.round
        (Float64.mul (Float64.single n 1000) (Float64.of_int 100)) 2
      = Float64.of_ratio false n 10) /\
  (forall n,
      (0 < n <= 1024)%Z ->
      Float64.round
        (Float64.mul (Float64.single n 1024) (Float64.of_int 100)) 2
      = Float64.of_ratio false (Float64.rne_div (100 * 100 * n) 1024) 100).
Proof.
  intros Hlist Hsome.
  split; [|split; [exact percentage_of_thousandths
                  | exact percentage_of_dyadic]].
  destruct (last_overall_exists evals Hsome) as [e Hlast].
  destruct (last_overall_some evals e Hlast)
    as (Hov & before & after & Heq & Hafter).
  exists e, before, after.
  split; [exact Heq|]. split; [apply overall_empty; exact Hov|].
  split; [exact Hafter|].
  split; [apply segment_after_last_slash|].
  pose proof (display_evaluation_run remote project_id compute_region
                model_id evals Hlist) as Hrun.
  rewrite Hlast in Hrun. cbv zeta in Hrun |- *.
  split.
  - intros exn Hget. rewrite Hget in Hrun. exact Hrun.
  - intros fetched Hget. rewrite Hget in Hrun. exact Hrun.
Qed.

(** On a listing of a per-class record and the overall record, whose
    metrics are the binary32 numbers nearest to 0.5, 2/3 and 4/7 (and
    0.25, 0.125, 0.75, 0.875), the run shows 50.0, 66.67, 57.14 (and 25.0,
    12.5, 75.0, 87.5). *)
Lemma display_evaluation_reports_overall_witness :
  on_list_model_evaluations (Fake.service Fake.class_then_whole)
    (model_path "p" "us-central1" "ICN123") = complete Fake.class_then_whole /\
  (exists e, In e Fake.class_then_whole /\ annotation_spec_id e = EmptyString) /\
  display_evaluation (Fake.service Fake.class_then_whole)
    "p" "us-central1" "ICN123"
  = ([ClientOpened;
      Called (ListModelEvaluations
                "projects/p/locations/us-central1/models/ICN123");
      Called (GetModelEvaluation
                "projects/p/locations/us-central1/models/ICN123/modelEvaluations/222");
      Printed (Format "Model Precision: {}%" (VFloat (Float64.of_int 50)));
      Printed (Format "Model Recall: {}%"
                 (VFloat (Float64.of_ratio false 6667 100)));
      Printed (Format "Model F1 score: {}%"
                 (VFloat (Float64.of_ratio false 5714 100)));
      Printed (Format "Model absolute error: {}%"
                 (VFloat (Float64.of_int 25)));
      Printed (Format "Model mean squared error: {}%"
                 (VFloat (Float64.of_ratio false 125 10)));
      Printed (Format "Model linear kappa: {}%"
                 (VFloat (Float64.of_int 75)));
      Printed (Format "Model quadratic kappa: {}%"
                 (VFloat (Float64.of_ratio false 875 10)))],
     inr tt) /\
  (0 < 667 <= 1000)%Z /\
  Float64.round
    (Float64.mul (Float64.single 667 1000) (Float64.of_int 100)) 2
  = Float64.of_ratio false 667 10 /\
  (0 < 32 <= 1024)%Z /\
  Float64.round
    (Float64.mul (Float64.single 32 1024) (Float64.of_int 100)) 2
  = Float64.of_ratio false 312 100.
Proof.
  assert (Hsome : exists e, In e Fake.class_then_whole
                            /\ annotation_spec_id e = EmptyString).
  { exists Fake.whole. split; [right; left; reflexivity | reflexivity]. }
  assert (H667 : (0 < 667 <= 1000)%Z) by lia.
  assert (H32 : (0 < 32 <= 1024)%Z) by lia.
  destruct (display_evaluation_reports_overall
              (Fake.service Fake.class_then_whole) "p" "us-central1" "ICN123"
              Fake.class_then_whole eq_refl Hsome)
    as (_ & Hthousandths & Hdyadic).
  split; [reflexivity|]. split; [exact Hsome|].
  split; [vm_compute; reflexivity|].
  split; [exact H667|]. split; [exact (Hthousandths 667%Z H667)|].
  split; [exact H32|]. exact (Hdyadic 32%Z H32).
Defined.

(** C2: when every page of the evaluation list arrives and no record has
    an empty [annotation_spec_id], [display_evaluation] stops with the
    unbound-local error on [model_evaluation_id] right after the listing
    call: no evaluation is fetched and nothing is printed. *)
Theorem display_evaluation_unset_selector
    (remote : Service) (project_id compute_region model_id : string)
    (evals : list ModelEvaluation) :
  on_list_model_evaluations remote
    (model_path project_id compute_region model_id) = complete evals ->
  (forall e, In e evals -> annotation_spec_id e <> EmptyString) ->
  display_evaluation remote project_id compute_region model_id
  = ([ClientOpened;
      Called (ListModelEvaluations
                (model_path project_id compute_region model_id))],
     inl (UnboundLocalError "model_evaluation_id")) /\
  forall full_id,
    ~ In (Called (GetModelEvaluation full_id))
         (log_of (display_evaluation remote project_id compute_region
                    model_id)).
Proof.
  intros Hlist Hnone.
  pose proof (display_evaluation_run remote project_id compute_region
                model_id evals Hlist) as Hrun.
  rewrite (last_overall_none evals Hnone) in Hrun. cbv zeta in Hrun.
  split; [exact Hrun|].
  intros full_id. rewrite Hrun. unfold log_of. simpl.
  intros [H | [H | []]]; discriminate.
Qed.

Lemma display_evaluation_unset_selector_witness :
  on_list_model_evaluations (Fake.service [Fake.per_class])
    (model_path "p" "us-central1" "ICN123") = complete [Fake.per_class] /\
  (forall e, In e [Fake.per_class] -> annotation_spec_id e <> EmptyString) /\
  display_evaluation (Fake.service [Fake.per_class]) "p" "us-central1" "ICN123"
  = ([ClientOpened;
      Called (ListModelEvaluations (model_path "p" "us-central1" "ICN123"))],
     inl (UnboundLocalError "model_evaluation_id")).
Proof.
  assert (Hclass : forall e, In e [Fake.per_class] ->
                             annotation_spec_id e <> EmptyString).
  { intros e [<- | []]. discriminate. }
  split; [reflexivity|]. split; [exact Hclass|].
  exact (proj1 (display_evaluation_unset_selector
                  (Fake.service [Fake.per_class]) "p" "us-central1" "ICN123"
                  [Fake.per_class] eq_refl Hclass)).
Defined.

(** C10: the scan keeps the id of the last record with an empty
    [annotation_spec_id].  Whatever the records before it are (matching or
    not) and whatever the selector held, once the scan has passed the last
    matching record [e] the selector is the id of [e], and that is the
    evaluation fetched and displayed. *)
Theorem display_evaluation_selects_last
    (remote : Service) (project_id compute_region model_id : string)
    (before after : list ModelEvaluation) (e : ModelEvaluation) :
  on_list_model_evaluations remote
    (model_path project_id compute_region model_id)
    = complete (before ++ e :: after) ->
  annotation_spec_id e = EmptyString ->
  (forall e', In e' after -> annotation_spec_id e' <> EmptyString) ->
  (forall assigned,
      for_each (before ++ e :: after) assigned scan_body
      = ret (Some (evaluation_id e))) /\
  let full_id :=
    model_evaluation_path project_id compute_region model_id
      (evaluation_id e) in
  let requests :=
    [ClientOpened;
     Called (ListModelEvaluations
               (model_path project_id compute_region model_id));
     Called (GetModelEvaluation full_id)] in
  display_evaluation remote project_id compute_region model_id
  = match on_get_model_evaluation remote full_id with
    | inl exn => (requests, inl exn)
    | inr fetched =>
        (requests
           ++ displayed_metrics (text_sentiment_evaluation_metrics fetched),
         inr tt)
    end.
Proof.
  intros Hlist He Hafter.
  assert (Hlast : last_overall (before ++ e :: after) = Some e).
  { apply last_overall_split; [apply overall_empty; exact He | exact Hafter]. }
  split.
  - intros assigned. rewrite scan_run, Hlast. reflexivity.
  - pose proof (display_evaluation_run remote project_id compute_region
                  model_id _ Hlist) as Hrun.
    rewrite Hlast in Hrun. exact Hrun.
Qed.

Lemma display_evaluation_selects_last_witness :
  on_list_model_evaluations (Fake.service Fake.two_wholes)
    (model_path "p" "us-central1" "ICN123")
    = complete ([Fake.whole; Fake.per_class] ++ Fake.whole_again :: []) /\
  annotation_spec_id Fake.whole_again = EmptyString /\
  (forall e', In e' [] -> annotation_spec_id e' <> EmptyString) /\
  log_of (display_evaluation (Fake.service Fake.two_wholes)
            "p" "us-central1" "ICN123")
  = [ClientOpened;
     Called (ListModelEvaluations
               "projects/p/locations/us-central1/models/ICN123");
     Called (GetModelEvaluation
               "projects/p/locations/us-central1/models/ICN123/modelEvaluations/333")]
    ++ displayed_metrics (text_sentiment_evaluation_metrics Fake.whole_again).
Proof.
  assert (Hnone : forall e' : ModelEvaluation,
             In e' [] -> annotation_spec_id e' <> EmptyString).
  { intros e' []. }
  split; [reflexivity|]. split; [reflexivity|]. split; [exact Hnone|].
  rewrite (proj2 (display_evaluation_selects_last
                    (Fake.service Fake.two_wholes) "p" "us-central1" "ICN123"
                    [Fake.whole; Fake.per_class] [] Fake.whole_again
                    eq_refl eq_refl Hnone)).
  reflexivity.
Defined.

(** ** Showing a model *)

Lemma display_model_run (fromtimestamp : Z -> result Py.datetime)
    (model : Model) :
  display_model fromtimestamp model
    (retrieve_deployment_state (deployment_state model))
  = (fst (displayed_model fromtimestamp model),
     match snd (displayed_model fromtimestamp model) with
     | Some exn => inl exn
     | None => inr tt
     end).
Proof.
  unfold display_model, displayed_model. rewrite last_segment_ret.
  destruct (fromtimestamp (seconds (create_time model))); reflexivity.
Qed.

Lemma get_model_run (remote : Service)
    (fromtimestamp : Z -> result Py.datetime)
    (project_id compute_region model_id : string) :
  get_model remote fromtimestamp project_id compute_region model_id
  = let opening :=
      [ClientOpened;
       Called (GetModel (model_path project_id compute_region model_id))] in
    match on_get_model remote
            (model_path project_id compute_region model_id) with
    | inl exn => (opening, inl exn)
    | inr model =>
        (opening ++ fst (displayed_model fromtimestamp model),
         match snd (displayed_model fromtimestamp model) with
         | Some exn => inl exn
         | None => inr tt
         end)
    end.
Proof.
  unfold get_model, AutoMlClient, client_get_model.
  cbn [emit ret bind fst snd lift].
  destruct (on_get_model remote
              (model_path project_id compute_region model_id)) as [exn|model].
  - reflexivity.
  - rewrite display_model_run. reflexivity.
Qed.

Lemma show_models_run (fromtimestamp : Z -> result Py.datetime)
    (models : list Model) :
  for_each models tt
    (fun _ model =>
       display_model fromtimestamp model
         (retrieve_deployment_state (deployment_state model)))
  = (fst (displayed_models fromtimestamp models),
     match snd (displayed_models fromtimestamp models) with
     | Some exn => inl exn
     | None => inr tt
     end).
Proof.
  induction models as [|model models IH].
  - reflexivity.
  - simpl for_each. rewrite display_model_run. cbn [displayed_models].
    destruct (displayed_model fromtimestamp model) as [lines [exn|]].
    + reflexivity.
    + cbn [fst snd]. rewrite bind_log, IH.
      destruct (displayed_models fromtimestamp models) as [more stop].
      reflexivity.
Qed.

Lemma list_models_run (remote : Service)
    (fromtimestamp : Z -> result Py.datetime)
    (project_id compute_region filter_ : string) :
  list_models remote fromtimestamp project_id compute_region filter_
  = let response :=
      on_list_models remote (location_path project_id compute_region)
        filter_ in
    let shown := displayed_models fromtimestamp (elements response) in
    ([ClientOpened;
      Called (ListModels (location_path project_id compute_region) filter_);
      Printed (Text "List of models:")] ++ fst shown,
     match snd shown with
     | Some exn => inl exn
     | None =>
         match failure response with
         | Some exn => inl exn
         | None => inr tt
         end
     end).
Proof.
  unfold list_models, AutoMlClient, client_list_models, for_response, print.
  cbn [emit ret bind fst snd lift]. rewrite show_models_run. cbv zeta.
  destruct (displayed_models fromtimestamp
              (elements (on_list_models remote
                           (location_path project_id compute_region)
                           filter_))) as [lines [exn|]]; cbn [fst snd].
  - reflexivity.
  - destruct (failure (on_list_models remote
                         (location_path project_id compute_region) filter_));
      cbn; rewrite app_nil_r; reflexivity.
Qed.

(** The lines of a model start with its name and id. *)
Lemma displayed_model_starts (fromtimestamp : Z -> result Py.datetime)
    (model : Model) :
  exists rest,
    fst (displayed_model fromtimestamp model)
    = [Printed (Format "Model name: {}" (VStr (name model)));
       Printed (Format "Model id: {}" (VStr (segment (name model))))] ++ rest.
Proof.
  unfold displayed_model.
  destruct (fromtimestamp (seconds (create_time model)));
    eexists; reflexivity.
Qed.


Lemma displayed_model_state_line (fromtimestamp : Z -> result Py.datetime)
    (model : Model) (arg : value) :
  In (Printed (Format "Model deployment state: {}" arg))
     (fst (displayed_model fromtimestamp model)) ->
  arg = VStr (retrieve_deployment_state (deployment_state model)).
Proof.
  unfold displayed_model.
  destruct (fromtimestamp (seconds (create_time model))); cbn;
    intros H; repeat (destruct H as [H | H]; [try discriminate|]);
      try contradiction; injection H as <-; reflexivity.
Qed.

Lemma displayed_models_member (fromtimestamp : Z -> result Py.datetime)
    (models : list Model) (ev : event) :
  In ev (fst (displayed_models fromtimestamp models)) ->
  exists listed,
    In listed models /\ In ev (fst (displayed_model fromtimestamp listed)).
Proof.
  induction models as [|model models IH]; cbn [displayed_models].
  - intros [].
  - destruct (displayed_model fromtimestamp model) as [lines [exn|]] eqn:Hm.
    + cbn [fst]. intros Hin. exists model. split; [left; reflexivity|].
      rewrite Hm. exact Hin.
    + destruct (displayed_models fromtimestamp models) as [more stop].
      cbn [fst] in *. intros Hin. apply in_app_or in Hin.
      destruct Hin as [Hin | Hin].
      * exists model. split; [left; reflexivity|]. rewrite Hm. exact Hin.
      * destruct (IH Hin) as (listed & Hlisted & Hev).
        exists listed. split; [right; exact Hlisted | exact Hev].
Qed.




(** ** Deployment state *)

(** C3: the deployment state shown by [list_models] and [get_model] is
    defined for every value of the remote field and is one of "deployed"
    and "undeployed", never both: DEPLOYED gives "deployed", every other
    value (unspecified and UNDEPLOYED among them) gives "undeployed".
    Every "Model deployment state" line of [get_model] and of
    [list_models] carries that text for the model it belongs to, and it
    is the last line of [get_model] whenever the creation time of the
    fetched model is converted. *)
Theorem deployment_state_total (state : Z) :
  (retrieve_deployment_state state = "deployed"
   \/ retrieve_deployment_state state = "undeployed") /\
  ~ (retrieve_deployment_state state = "deployed"
     /\ retrieve_deployment_state state = "undeployed") /\
  (state = DeploymentState.DEPLOYED ->
   retrieve_deployment_state state = "deployed") /\
  (state <> DeploymentState.DEPLOYED ->
   retrieve_deployment_state state = "undeployed") /\
  retrieve_deployment_state DeploymentState.DEPLOYMENT_STATE_UNSPECIFIED
    = "undeployed" /\
  retrieve_deployment_state DeploymentState.UNDEPLOYED = "undeployed" /\
  forall (remote : Service) (fromtimestamp : Z -> result Py.datetime)
         (project_id compute_region model_id filter_ : string),
    (forall model,
        on_get_model remote (model_path project_id compute_region model_id)
          = inr model ->
        deployment_state model = state ->
        (forall arg,
            In (Printed (Format "Model deployment state: {}" arg))
               (log_of (get_model remote fromtimestamp project_id
                          compute_region model_id)) ->
            arg = VStr (retrieve_deployment_state state)) /\
        (forall local_time,
            fromtimestamp (seconds (create_time model)) = inr local_time ->
            Py.index_last
              (log_of (get_model remote fromtimestamp project_id
                         compute_region model_id))
            = Some (Printed (Format "Model deployment state: {}"
                               (VStr (retrieve_deployment_state state)))))) /\
    (forall arg,
        In (Printed (Format "Model deployment state: {}" arg))
           (log_of (list_models remote fromtimestamp project_id
                      compute_region filter_)) ->
        exists listed,
          In listed
            (elements (on_list_models remote
                         (location_path project_id compute_region) filter_)) /\
          arg = VStr (retrieve_deployment_state (deployment_state listed))).
Proof.
  assert (Hshown :
            forall (remote : Service)
                   (fromtimestamp : Z -> result Py.datetime)
                   (project_id compute_region model_id filter_ : string),
              (forall model,
                  on_get_model remote
                    (model_path project_id compute_region model_id)
                    = inr model ->
                  deployment_state model = state ->
                  (forall arg,
                      In (Printed (Format "Model deployment state: {}" arg))
                         (log_of (get_model remote fromtimestamp project_id
                                    compute_region model_id)) ->
                      arg = VStr (retrieve_deployment_state state)) /\
                  (forall local_time,
                      fromtimestamp (seconds (create_time model))
                      = inr local_time ->
                      Py.index_last
                        (log_of (get_model remote fromtimestamp project_id
                                   compute_region model_id))
                      = Some (Printed
                                (Format "Model deployment state: {}"
                                   (VStr (retrieve_deployment_state
                                            state)))))) /\
              (forall arg,
                  In (Printed (Format "Model deployment state: {}" arg))
                     (log_of (list_models remote fromtimestamp project_id
                                compute_region filter_)) ->
                  exists listed,
                    In listed
                      (elements (on_list_models remote
                                   (location_path project_id compute_region)
                                   filter_)) /\
                    arg = VStr (retrieve_deployment_state
                                  (deployment_state listed)))).
  { intros remote fromtimestamp project_id compute_region model_id filter_.
    split.
    - intros model Hget Hstate. rewrite get_model_run, Hget. cbv zeta.
      unfold log_of. cbn [fst]. split.
      + intros arg Hin. apply in_app_or in Hin.
        destruct Hin as [[H | [H | []]] | Hin]; try discriminate.
        rewrite <- Hstate.
        apply (displayed_model_state_line fromtimestamp model arg Hin).
      + intros local_time Htime. unfold displayed_model. rewrite Htime.
        rewrite <- Hstate. reflexivity.
    - intros arg. rewrite list_models_run. cbv zeta. unfold log_of.
      cbn [fst]. intros Hin. apply in_app_or in Hin.
      destruct Hin as [[H | [H | [H | []]]] | Hin]; try discriminate.
      destruct (displayed_models_member fromtimestamp _ _ Hin)
        as (listed & Hlisted & Hev).
      exists listed. split; [exact Hlisted|].
      apply (displayed_model_state_line fromtimestamp listed arg Hev). }
  unfold retrieve_deployment_state in *.
  destruct (Z.eqb_spec state DeploymentState.DEPLOYED) as [Heq | Hneq].
  - split; [left; reflexivity|].
    split; [intros [_ H]; discriminate|].
    split; [intros _; reflexivity|].
    split; [intros Hneq; contradiction|].
    split; [reflexivity|]. split; [reflexivity|]. exact Hshown.
  - split; [right; reflexivity|].
    split; [intros [H _]; discriminate|].
    split; [intros Heq; contradiction|].
    split; [intros _; reflexivity|].
    split; [reflexivity|]. split; [reflexivity|]. exact Hshown.
Qed.

Lemma deployment_state_total_witness :
  DeploymentState.UNDEPLOYED <> DeploymentState.DEPLOYED /\
  retrieve_deployment_state DeploymentState.UNDEPLOYED = "undeployed" /\
  DeploymentState.DEPLOYED = DeploymentState.DEPLOYED /\
  retrieve_deployment_state DeploymentState.DEPLOYED = "deployed" /\
  on_get_model (Fake.service []) (model_path "p" "us-central1" "ICN123")
    = inr Fake.icn123 /\
  deployment_state Fake.icn123 = DeploymentState.DEPLOYED /\
  Fake.utc (seconds (create_time Fake.icn123))
    = inr {| Py.year := 2019; Py.month := 6; Py.day := 8;
             Py.hour := 13; Py.minute := 20; Py.second := 0 |} /\
  Py.index_last
    (log_of (get_model (Fake.service []) Fake.utc "p" "us-central1" "ICN123"))
  = Some (Printed (Format "Model deployment state: {}"
                     (VStr (retrieve_deployment_state
                              DeploymentState.DEPLOYED)))).
Proof.
  assert (Hneq : DeploymentState.UNDEPLOYED <> DeploymentState.DEPLOYED)
    by discriminate.
  split; [exact Hneq|].
  split.
  - exact (proj1 (proj2 (proj2 (proj2
             (deployment_state_total DeploymentState.UNDEPLOYED)))) Hneq).
  - split; [reflexivity|]. split.
    + exact (proj1 (proj2 (proj2
               (deployment_state_total DeploymentState.DEPLOYED))) eq_refl).
    + split; [reflexivity|]. split; [reflexivity|].
      split; [reflexivity|].
      exact (proj2 (proj1 (proj2 (proj2 (proj2 (proj2 (proj2 (proj2
               (deployment_state_total DeploymentState.DEPLOYED))))))
               (Fake.service []) Fake.utc "p" "us-central1" "ICN123" "f")
               Fake.icn123 eq_refl eq_refl) _ eq_refl).
Defined.

(** ** [delete_model] *)

Lemma wait_run (polls : nat) :
  wait polls = (repeat (Polled false) polls ++ [Polled true], inr tt).
Proof.
  induction polls as [|n IH].
  - reflexivity.
  - change (wait (S n)) with (bind (emit (Polled false)) (fun _ => wait n)).
    rewrite bind_emit, IH. reflexivity.
Qed.

Lemma delete_model_run (remote : Service)
    (project_id compute_region model_id : string) :
  delete_model remote project_id compute_region model_id
  = let opening :=
      [ClientOpened;
       Called (DeleteModel (model_path project_id compute_region model_id))] in
    match on_delete_model remote
            (model_path project_id compute_region model_id) with
    | inl exn => (opening, inl exn)
    | inr op =>
        let waiting := repeat (Polled false) (pending op) ++ [Polled true] in
        match outcome op with
        | inl exn => (opening ++ waiting, inl exn)
        | inr deleted =>
            (opening ++ waiting
               ++ [Printed (Format "Model deleted. {}" (VStr deleted))],
             inr tt)
        end
    end.
Proof.
  unfold delete_model, AutoMlClient, client_delete_model, operation_result.
  cbn [emit ret bind fst snd lift].
  destruct (on_delete_model remote
              (model_path project_id compute_region model_id)) as [exn|op].
  - reflexivity.
  - rewrite wait_run. cbn [bind lift ret].
    destruct (outcome op) as [exn|deleted]; cbn.
    + rewrite !app_nil_r. reflexivity.
    + rewrite app_nil_r, <- app_assoc. reflexivity.
Qed.

Lemma no_print_before (quiet : list event) (o : output)
    (earlier later : list event) (last : list event) :
  (forall ev, In ev quiet -> is_print ev = false) ->
  quiet ++ last = earlier ++ Printed o :: later ->
  (last = [] -> False) /\
  (forall shown, last = [Printed shown] -> earlier = quiet /\ later = []).
Proof.
  intros Hquiet. revert earlier.
  induction quiet as [|q quiet IH]; intros earlier Heq.
  - simpl in Heq. split.
    + intros ->. destruct earlier; discriminate.
    + intros shown ->. destruct earlier as [|x earlier].
      * injection Heq as _ <-. split; reflexivity.
      * injection Heq as _ Heq. destruct earlier; discriminate.
  - destruct earlier as [|x earlier].
    + simpl in Heq. injection Heq as Hq _.
      specialize (Hquiet q (or_introl eq_refl)). rewrite Hq in Hquiet.
      discriminate.
    + simpl in Heq. injection Heq as <- Heq.
      destruct (IH (fun ev Hin => Hquiet ev (or_intror Hin)) earlier Heq)
        as [Hnil Hone].
      split; [exact Hnil|].
      intros shown Hlast. destruct (Hone shown Hlast) as [-> ->].
      split; reflexivity.
Qed.

(** C4: [delete_model] calls the remote delete, then polls the returned
    operation until a poll finds it done, and prints the confirmation only
    after that: every run that prints it has the delete call, the pending
    polls and the completing poll before the printed line, in that order,
    and nothing after it. *)
Theorem delete_model_waits
    (remote : Service) (project_id compute_region model_id : string) :
  let full_id := model_path project_id compute_region model_id in
  (forall op deleted,
      on_delete_model remote full_id = inr op ->
      outcome op = inr deleted ->
      delete_model remote project_id compute_region model_id
      = ([ClientOpened; Called (DeleteModel full_id)]
           ++ repeat (Polled false) (pending op)
           ++ [Polled true;
               Printed (Format "Model deleted. {}" (VStr deleted))],
         inr tt)) /\
  (forall earlier o later,
      log_of (delete_model remote project_id compute_region model_id)
      = earlier ++ Printed o :: later ->
      exists op deleted,
        on_delete_model remote full_id = inr op /\
        outcome op = inr deleted /\
        o = Format "Model deleted. {}" (VStr deleted) /\
        earlier = [ClientOpened; Called (DeleteModel full_id)]
                    ++ repeat (Polled false) (pending op) ++ [Polled true] /\
        later = []).
Proof.
  intros full_id. subst full_id. split.
  - intros op deleted Hdel Hout. rewrite delete_model_run, Hdel.
    cbv zeta. rewrite Hout. rewrite <- app_assoc. reflexivity.
  - intros earlier o later Hlog. rewrite delete_model_run in Hlog.
    cbv zeta in Hlog. unfold log_of in Hlog.
    assert (Hquiet : forall polls ev,
               In ev ([ClientOpened;
                       Called (DeleteModel
                                 (model_path project_id compute_region
                                    model_id))]
                        ++ repeat (Polled false) polls ++ [Polled true]) ->
               is_print ev = false).
    { intros polls ev Hin. simpl in Hin.
      destruct Hin as [<- | [<- | Hin]]; try reflexivity.
      apply in_app_or in Hin. destruct Hin as [Hin | [<- | []]].
      - apply repeat_spec in Hin. subst ev. reflexivity.
      - reflexivity. }
    destruct (on_delete_model remote
                (model_path project_id compute_region model_id))
      as [exn|op] eqn:Hdel.
    + exfalso. simpl in Hlog.
      destruct earlier as [|x [|y [|z rest]]]; discriminate.
    + set (quiet := [ClientOpened;
                     Called (DeleteModel
                               (model_path project_id compute_region
                                  model_id))]
                      ++ repeat (Polled false) (pending op) ++ [Polled true]).
      destruct (outcome op) as [exn|deleted] eqn:Hout.
      * exfalso.
        assert (Hsplit : quiet ++ [] = earlier ++ Printed o :: later).
        { rewrite app_nil_r. exact Hlog. }
        apply no_print_before in Hsplit; [|apply Hquiet].
        exact (proj1 Hsplit eq_refl).
      * assert (Hsplit : quiet ++ [Printed (Format "Model deleted. {}"
                                              (VStr deleted))]
                         = earlier ++ Printed o :: later).
        { rewrite <- Hlog. unfold quiet. simpl. rewrite <- app_assoc.
          reflexivity. }
        pose proof Hsplit as Hshape.
        apply no_print_before in Hshape; [|apply Hquiet].
        destruct (proj2 Hshape _ eq_refl) as [-> ->].
        apply app_inv_head in Hsplit. injection Hsplit as <-.
        exists op, deleted. repeat split; try reflexivity; assumption.
Qed.

Lemma delete_model_waits_witness :
  on_delete_model (Fake.service [])
    (model_path "p" "us-central1" "ICN123") = inr Fake.deletion /\
  outcome Fake.deletion = inr EmptyString /\
  delete_model (Fake.service []) "p" "us-central1" "ICN123"
  = ([ClientOpened;
      Called (DeleteModel "projects/p/locations/us-central1/models/ICN123");
      Polled false; Polled false; Polled false; Polled true;
      Printed (Format "Model deleted. {}" (VStr EmptyString))],
     inr tt) /\
  log_of (delete_model (Fake.service []) "p" "us-central1" "ICN123")
  = [ClientOpened;
     Called (DeleteModel "projects/p/locations/us-central1/models/ICN123");
     Polled false; Polled false; Polled false; Polled true]
      ++ Printed (Format "Model deleted. {}" (VStr EmptyString)) :: [] /\
  exists op deleted,
    on_delete_model (Fake.service [])
      (model_path "p" "us-central1" "ICN123") = inr op /\
    outcome op = inr deleted /\
    Format "Model deleted. {}" (VStr EmptyString)
    = Format "Model deleted. {}" (VStr deleted) /\
    [ClientOpened;
     Called (DeleteModel "projects/p/locations/us-central1/models/ICN123");
     Polled false; Polled false; Polled false; Polled true]
    = [ClientOpened;
       Called (DeleteModel (model_path "p" "us-central1" "ICN123"))]
        ++ repeat (Polled false) (pending op) ++ [Polled true] /\
    @nil event = [].
Proof.
  split; [reflexivity|]. split; [reflexivity|].
  split.
  - exact (proj1 (delete_model_waits (Fake.service []) "p" "us-central1"
                    "ICN123") Fake.deletion EmptyString eq_refl eq_refl).
  - split; [reflexivity|].
    exact (proj2 (delete_model_waits (Fake.service []) "p" "us-central1"
                    "ICN123")
             [ClientOpened;
              Called (DeleteModel
                        "projects/p/locations/us-central1/models/ICN123");
              Polled false; Polled false; Polled false; Polled true]
             (Format "Model deleted. {}" (VStr EmptyString)) [] eq_refl).
Defined.

(** ** [list_model_evaluations] *)

(** C7: when the remote evaluation list of the model is empty,
    [list_model_evaluations] prints the header and nothing else and ends
    without an exception, so the script exits with status 0. *)
Theorem list_model_evaluations_empty
    (remote : Service) (fromtimestamp : Z -> result Py.datetime)
    (environ : string -> option string)
    (project_id compute_region model_id : string) :
  on_list_model_evaluations remote
    (model_path project_id compute_region model_id) = complete [] ->
  environ "PROJECT_ID" = Some project_id ->
  environ "REGION_NAME" = Some compute_region ->
  list_model_evaluations remote project_id compute_region model_id
  = ([ClientOpened;
      Called (ListModelEvaluations
                (model_path project_id compute_region model_id));
      Printed (Text "List of model evaluations:")],
     inr tt) /\
  main remote fromtimestamp environ (list_model_evaluations_cmd model_id)
  = list_model_evaluations remote project_id compute_region model_id /\
  exit_status (main remote fromtimestamp environ (list_model_evaluations_cmd model_id)) = 0%Z.
Proof.
  intros Hlist Hproject Hregion.
  assert (Hrun : list_model_evaluations remote project_id compute_region
                   model_id
                 = ([ClientOpened;
                     Called (ListModelEvaluations
                               (model_path project_id compute_region model_id));
                     Printed (Text "List of model evaluations:")],
                    inr tt)).
  { unfold list_model_evaluations, AutoMlClient,
      client_list_model_evaluations, for_response, print.
    cbn [emit ret bind fst snd lift]. rewrite Hlist. reflexivity. }
  assert (Hmain : main remote fromtimestamp environ (list_model_evaluations_cmd model_id)
                  = list_model_evaluations remote project_id compute_region
                      model_id).
  { unfold main, environ_get. rewrite Hproject, Hregion, !bind_ret.
    reflexivity. }
  split; [exact Hrun|]. split; [exact Hmain|].
  rewrite Hmain, Hrun. reflexivity.
Qed.

Lemma list_model_evaluations_empty_witness :
  on_list_model_evaluations (Fake.service [])
    (model_path "p" "us-central1" "ICN123") = complete [] /\
  Fake.environ "PROJECT_ID" = Some "p" /\
  Fake.environ "REGION_NAME" = Some "us-central1" /\
  exit_status (main (Fake.service []) Fake.utc Fake.environ
                 (list_model_evaluations_cmd "ICN123")) = 0%Z.
Proof.
  split; [reflexivity|]. split; [reflexivity|]. split; [reflexivity|].
  exact (proj2 (proj2 (list_model_evaluations_empty (Fake.service [])
                         Fake.utc Fake.environ "p" "us-central1" "ICN123"
                         eq_refl eq_refl eq_refl))).
Defined.

(** ** Clients and calls per command *)

Lemma calls_app (l1 l2 : list event) : calls (l1 ++ l2) = calls l1 + calls l2.
Proof. unfold calls. rewrite filter_app, length_app. reflexivity. Qed.

Lemma clients_app (l1 l2 : list event) :
  clients (l1 ++ l2) = clients l1 + clients l2.
Proof. unfold clients. rewrite filter_app, length_app. reflexivity. Qed.

Lemma prints_only (log : list event) :
  (forall ev, In ev log -> is_print ev = true) ->
  calls log = 0 /\ clients log = 0.
Proof.
  induction log as [|ev log IH]; intros Hall.
  - split; reflexivity.
  - destruct (IH (fun ev' Hin => Hall ev' (or_intror Hin))) as [Hc Ho].
    pose proof (Hall ev (or_introl eq_refl)) as Hev.
    destruct ev; try discriminate. split; assumption.
Qed.

Lemma shown_model_prints (fromtimestamp : Z -> result Py.datetime)
    (model : Model) :
  forall ev,
    In ev (fst (displayed_model fromtimestamp model)) -> is_print ev = true.
Proof.
  intros ev. unfold displayed_model.
  destruct (fromtimestamp (seconds (create_time model))); cbn;
    intros H; repeat (destruct H as [<- | H]; [reflexivity|]);
      contradiction.
Qed.

Lemma shown_models_print (fromtimestamp : Z -> result Py.datetime)
    (models : list Model) :
  forall ev,
    In ev (fst (displayed_models fromtimestamp models)) -> is_print ev = true.
Proof.
  intros ev Hin.
  destruct (displayed_models_member fromtimestamp models ev Hin)
    as (listed & _ & Hev).
  apply (shown_model_prints fromtimestamp listed ev Hev).
Qed.

Lemma show_evaluations_run (evals : list ModelEvaluation) :
  for_each evals tt (fun _ element => print (Object (VEvaluation element)))
  = (map (fun element => Printed (Object (VEvaluation element))) evals, inr tt).
Proof.
  induction evals as [|e evals IH].
  - reflexivity.
  - change (for_each (e :: evals) tt
              (fun _ element => print (Object (VEvaluation element))))
      with (bind (emit (Printed (Object (VEvaluation e))))
              (fun _ => for_each evals tt
                 (fun _ element => print (Object (VEvaluation element))))).
    rewrite bind_emit, IH. reflexivity.
Qed.

Lemma list_model_evaluations_run (remote : Service)
    (project_id compute_region model_id : string) :
  list_model_evaluations remote project_id compute_region model_id
  = let response :=
      on_list_model_evaluations remote
        (model_path project_id compute_region model_id) in
    ([ClientOpened;
      Called (ListModelEvaluations
                (model_path project_id compute_region model_id));
      Printed (Text "List of model evaluations:")]
       ++ map (fun element => Printed (Object (VEvaluation element)))
            (elements response),
     match failure response with
     | Some exn => inl exn
     | None => inr tt
     end).
Proof.
  unfold list_model_evaluations, AutoMlClient, client_list_model_evaluations,
    for_response.
  unfold print at 1.
  cbn [emit ret bind fst snd lift]. rewrite show_evaluations_run.
  destruct (failure (on_list_model_evaluations remote
                       (model_path project_id compute_region model_id)));
    cbn; rewrite app_nil_r; reflexivity.
Qed.

Lemma display_evaluation_interrupted (remote : Service)
    (project_id compute_region model_id : string) (exn : exception) :
  failure (on_list_model_evaluations remote
             (model_path project_id compute_region model_id)) = Some exn ->
  display_evaluation remote project_id compute_region model_id
  = ([ClientOpened;
      Called (ListModelEvaluations
                (model_path project_id compute_region model_id))],
     inl exn).
Proof.
  intros Hfail. unfold display_evaluation, AutoMlClient,
    client_list_model_evaluations, for_response.
  cbn [emit ret bind fst snd]. rewrite Hfail, scan_run, bind_ret.
  reflexivity.
Qed.

Lemma existsb_overall (evals : list ModelEvaluation) :
  existsb overall evals
  = match last_overall evals with Some _ => true | None => false end.
Proof.
  induction evals as [|e evals IH].
  - reflexivity.
  - simpl existsb. rewrite last_overall_cons, IH.
    destruct (overall e); reflexivity.
Qed.

(** C8, as the code has it: every command opens exactly one client.  Every
    command but [display_evaluation] calls exactly one client method;
    [display_evaluation] calls two, the listing and then the fetch,
    whenever the listing arrives whole and holds an overall record, and
    one otherwise. *)
Theorem one_client_per_command
    (remote : Service) (fromtimestamp : Z -> result Py.datetime)
    (project_id compute_region : string) (args : command) :
  clients (log_of (run_command remote fromtimestamp project_id compute_region args)) = 1 /\
  calls (log_of (run_command remote fromtimestamp project_id compute_region args))
  = match args with
    | display_evaluation_cmd model_id =>
        if reaches_fetch
             (on_list_model_evaluations remote
                (model_path project_id compute_region model_id))
        then 2 else 1
    | _ => 1
    end.
Proof.
  destruct args as [dataset_id model_name | operation_full_id | filter_
                   | model_id | model_id | model_id model_evaluation_id
                   | model_id | model_id]; cbn [run_command].
  - unfold create_model, AutoMlClient, client_create_model, print.
    cbn [emit ret bind fst snd lift].
    destruct (on_create_model remote _ _); split; reflexivity.
  - unfold get_operation_status, AutoMlClient, client_get_operation, print.
    cbn [emit ret bind fst snd lift].
    destruct (on_get_operation remote _); split; reflexivity.
  - rewrite list_models_run. cbv zeta. unfold log_of. cbn [fst].
    rewrite calls_app, clients_app.
    destruct (prints_only _ (shown_models_print fromtimestamp
                (elements (on_list_models remote
                             (location_path project_id compute_region)
                             filter_)))) as [-> ->].
    split; reflexivity.
  - rewrite get_model_run. cbv zeta.
    destruct (on_get_model remote _) as [exn|model]; [split; reflexivity|].
    unfold log_of. cbn [fst]. rewrite calls_app, clients_app.
    destruct (prints_only _ (shown_model_prints fromtimestamp model))
      as [-> ->].
    split; reflexivity.
  - rewrite list_model_evaluations_run. cbv zeta. unfold log_of. cbn [fst].
    rewrite calls_app, clients_app.
    assert (Hprints : forall ev,
               In ev (map (fun element => Printed (Object (VEvaluation element)))
                        (elements (on_list_model_evaluations remote
                                     (model_path project_id compute_region
                                        model_id)))) ->
               is_print ev = true).
    { intros ev Hin. apply in_map_iff in Hin.
      destruct Hin as (e & <- & _). reflexivity. }
    destruct (prints_only _ Hprints) as [-> ->]. split; reflexivity.
  - unfold get_model_evaluation, AutoMlClient, client_get_model_evaluation,
      print.
    cbn [emit ret bind fst snd lift].
    destruct (on_get_model_evaluation remote _); split; reflexivity.
  - unfold reaches_fetch.
    destruct (on_list_model_evaluations remote
                (model_path project_id compute_region model_id))
      as [evals [exn|]] eqn:Hlist.
    + rewrite (display_evaluation_interrupted remote project_id compute_region
                 model_id exn) by (rewrite Hlist; reflexivity).
      split; reflexivity.
    + rewrite (display_evaluation_run remote project_id compute_region
                 model_id evals Hlist).
      cbv zeta. cbn [elements failure]. rewrite existsb_overall.
      destruct (last_overall evals) as [e|]; [|split; reflexivity].
      destruct (on_get_model_evaluation remote _); split; reflexivity.
  - rewrite delete_model_run. cbv zeta.
    destruct (on_delete_model remote _) as [exn|op]; [split; reflexivity|].
    assert (Hwait : calls (repeat (Polled false) (pending op) ++ [Polled true])
                    = 0 /\
                    clients (repeat (Polled false) (pending op)
                               ++ [Polled true]) = 0).
    { induction (pending op) as [|n [IHc IHo]]; split;
        try reflexivity; assumption. }
    destruct Hwait as [Hc Ho].
    set (waiting := repeat (Polled false) (pending op) ++ [Polled true]) in *.
    destruct (outcome op); unfold log_of; cbn [fst];
      rewrite ?calls_app, ?clients_app, ?Hc, ?Ho; split; reflexivity.
Qed.

(** C8, as stated, fails: with an overall record in the listing,
    [display_evaluation] calls the service twice in one invocation. *)
Lemma display_evaluation_calls_twice :
  calls (log_of (run_command (Fake.service Fake.class_then_whole)
                   Fake.utc "p" "us-central1" (display_evaluation_cmd "ICN123"))) = 2 /\
  ~ (calls (log_of (run_command (Fake.service Fake.class_then_whole)
                      Fake.utc "p" "us-central1" (display_evaluation_cmd "ICN123")))
     <= 1).
Proof.
  assert (Htwo : calls (log_of (run_command
                                  (Fake.service Fake.class_then_whole)
                                  Fake.utc "p" "us-central1"
                                  (display_evaluation_cmd "ICN123"))) = 2)
    by (vm_compute; reflexivity).
  split; [exact Htwo|]. rewrite Htwo. lia.
Qed.

(** ** Resource paths *)

Lemma append_inv_head (a b c : string) : (a ++ b = a ++ c)%string -> b = c.
Proof.
  induction a as [|x a IH]; simpl; intros H.
  - exact H.
  - injection H as H. apply IH. exact H.
Qed.

Lemma append_length (a b : string) :
  String.length (a ++ b) = String.length a + String.length b.
Proof. induction a as [|x a IH]; simpl; [reflexivity | rewrite IH; reflexivity]. Qed.

Lemma append_inv_tail (a b c : string) : (a ++ c = b ++ c)%string -> a = b.
Proof.
  revert b. induction a as [|x a IH]; intros b H.
  - destruct b as [|y b]; [reflexivity|]. exfalso.
    apply (f_equal String.length) in H. simpl in H.
    rewrite append_length in H. lia.
  - destruct b as [|y b].
    + exfalso. apply (f_equal String.length) in H. simpl in H.
      rewrite append_length in H. lia.
    + simpl in H. injection H as -> H. rewrite (IH b H). reflexivity.
Qed.

(** Two strings cut at their first separator agree piece by piece. *)
Lemma cut_at_slash (a a' rest rest' : string) :
  well_formed a -> well_formed a' ->
  (a ++ String slash rest = a' ++ String slash rest')%string ->
  a = a' /\ rest = rest'.
Proof.
  unfold well_formed. revert a'.
  induction a as [|x a IH]; intros a' Ha Ha' H.
  - destruct a' as [|y a'].
    + simpl in H. injection H as H. split; [reflexivity | exact H].
    + exfalso. simpl in H. injection H as Hy _. subst y.
      simpl in Ha'. discriminate.
  - destruct a' as [|y a'].
    + exfalso. simpl in H. injection H as Hx _. subst x.
      simpl in Ha. discriminate.
    + simpl in H. injection H as -> H.
      simpl in Ha, Ha'. apply orb_false_iff in Ha, Ha'.
      destruct (IH a' (proj2 Ha) (proj2 Ha') H) as [-> ->].
      split; reflexivity.
Qed.

Lemma location_path_inv (p r p' r' : string) :
  well_formed p -> well_formed p' ->
  location_path p r = location_path p' r' -> p = p' /\ r = r'.
Proof.
  intros Hp Hp' H. unfold location_path in H.
  apply append_inv_head in H.
  change ("/locations/" ++ r)%string
    with (String slash ("locations/" ++ r))%string in H.
  change ("/locations/" ++ r')%string
    with (String slash ("locations/" ++ r'))%string in H.
  destruct (cut_at_slash _ _ _ _ Hp Hp' H) as [-> Hr].
  apply append_inv_head in Hr. split; [reflexivity | exact Hr].
Qed.

Lemma model_path_inv (p r m p' r' m' : string) :
  well_formed p -> well_formed p' -> well_formed r -> well_formed r' ->
  model_path p r m = model_path p' r' m' -> p = p' /\ r = r' /\ m = m'.
Proof.
  intros Hp Hp' Hr Hr' H. unfold model_path in H.
  apply append_inv_head in H.
  change ("/locations/" ++ r ++ "/models/" ++ m)%string
    with (String slash ("locations/" ++ r ++ "/models/" ++ m))%string in H.
  change ("/locations/" ++ r' ++ "/models/" ++ m')%string
    with (String slash ("locations/" ++ r' ++ "/models/" ++ m'))%string in H.
  destruct (cut_at_slash _ _ _ _ Hp Hp' H) as [-> H1].
  apply append_inv_head in H1.
  change ("/models/" ++ m)%string
    with (String slash ("models/" ++ m))%string in H1.
  change ("/models/" ++ m')%string
    with (String slash ("models/" ++ m'))%string in H1.
  destruct (cut_at_slash _ _ _ _ Hr Hr' H1) as [-> H2].
  apply append_inv_head in H2. repeat split; [reflexivity.. | exact H2].
Qed.

Lemma model_evaluation_path_model (p r m e : string) :
  model_evaluation_path p r m e
  = model_path p r (m ++ "/modelEvaluations/" ++ e).
Proof. reflexivity. Qed.

Lemma model_evaluation_path_inv (p r m e p' r' m' e' : string) :
  well_formed p -> well_formed p' -> well_formed r -> well_formed r' ->
  well_formed m -> well_formed m' ->
  model_evaluation_path p r m e = model_evaluation_path p' r' m' e' ->
  p = p' /\ r = r' /\ m = m' /\ e = e'.
Proof.
  intros Hp Hp' Hr Hr' Hm Hm' H. rewrite !model_evaluation_path_model in H.
  destruct (model_path_inv _ _ _ _ _ _ Hp Hp' Hr Hr' H) as (-> & -> & H1).
  change ("/modelEvaluations/" ++ e)%string
    with (String slash ("modelEvaluations/" ++ e))%string in H1.
  change ("/modelEvaluations/" ++ e')%string
    with (String slash ("modelEvaluations/" ++ e'))%string in H1.
  destruct (cut_at_slash _ _ _ _ Hm Hm' H1) as [-> H2].
  apply append_inv_head in H2. repeat split; [reflexivity.. | exact H2].
Qed.

(** C5, as the code has it: a path is a function of its components (equal
    components give the equal string), and for well-formed project ids and
    regions the location path and the model path determine every
    component.  The model-evaluation path determines the project id and
    region, and the model id and evaluation id one at a time; it
    determines the two together when the model id is well formed too. *)
Theorem resource_paths_injective
    (p r p' r' : string) :
  well_formed p -> well_formed r -> well_formed p' -> well_formed r' ->
  (location_path p r = location_path p' r' <-> p = p' /\ r = r') /\
  (forall m m',
      model_path p r m = model_path p' r' m' <-> p = p' /\ r = r' /\ m = m') /\
  (forall m m' e e',
      well_formed m -> well_formed m' ->
      (model_evaluation_path p r m e = model_evaluation_path p' r' m' e'
       <-> p = p' /\ r = r' /\ m = m' /\ e = e')) /\
  (forall m m' e e',
      model_evaluation_path p r m e = model_evaluation_path p' r' m' e' ->
      p = p' /\ r = r') /\
  (forall m e e',
      model_evaluation_path p r m e = model_evaluation_path p r m e' ->
      e = e') /\
  (forall m m' e,
      model_evaluation_path p r m e = model_evaluation_path p r m' e ->
      m = m').
Proof.
  intros Hp Hr Hp' Hr'.
  split; [|split; [|split; [|split; [|split]]]].
  - split.
    + apply location_path_inv; assumption.
    + intros [-> ->]. reflexivity.
  - intros m m'. split.
    + apply model_path_inv; assumption.
    + intros (-> & -> & ->). reflexivity.
  - intros m m' e e' Hm Hm'. split.
    + apply model_evaluation_path_inv; assumption.
    + intros (-> & -> & -> & ->). reflexivity.
  - intros m m' e e' H. rewrite !model_evaluation_path_model in H.
    destruct (model_path_inv _ _ _ _ _ _ Hp Hp' Hr Hr' H) as (-> & -> & _).
    split; reflexivity.
  - intros m e e' H. unfold model_evaluation_path in H.
    repeat (apply append_inv_head in H). exact H.
  - intros m m' e H. unfold model_evaluation_path in H.
    do 5 (apply append_inv_head in H).
    apply append_inv_tail in H. exact H.
Qed.

Lemma resource_paths_injective_witness :
  well_formed "p" /\ well_formed "us-central1" /\
  (model_path "p" "us-central1" "ICN123" = model_path "p" "us-central1" "ICN123"
   <-> "p" = "p" /\ "us-central1" = "us-central1" /\ "ICN123" = "ICN123") /\
  (model_evaluation_path "p" "us-central1" "ICN123" "222"
   = model_evaluation_path "p" "us-central1" "ICN123" "222"
   <-> "p" = "p" /\ "us-central1" = "us-central1" /\ "ICN123" = "ICN123"
       /\ "222" = "222").
Proof.
  assert (Hp : well_formed "p") by reflexivity.
  assert (Hr : well_formed "us-central1") by reflexivity.
  assert (Hm : well_formed "ICN123") by reflexivity.
  split; [exact Hp|]. split; [exact Hr|].
  destruct (resource_paths_injective "p" "us-central1" "p" "us-central1"
              Hp Hr Hp Hr) as (_ & Hmodel & Heval & _).
  split.
  - apply Hmodel.
  - apply (Heval "ICN123" "ICN123" "222" "222" Hm Hm).
Defined.

(** C5, as stated, fails: with a well-formed project id and region, two
    different pairs of model id and evaluation id give the same
    model-evaluation path. *)
Lemma model_evaluation_path_collision :
  well_formed "p" /\ well_formed "us-central1" /\
  "a/modelEvaluations/b" <> "a" /\ "c" <> "b/modelEvaluations/c" /\
  model_evaluation_path "p" "us-central1" "a/modelEvaluations/b" "c"
  = model_evaluation_path "p" "us-central1" "a" "b/modelEvaluations/c".
Proof.
  repeat split; try reflexivity; discriminate.
Qed.

(* ===================================================================== *)
(** * Rounding to two decimals *)
(* ===================================================================== *)

Module Rounding.

Import Float64.
Local Open Scope Z_scope.

Lemma rne_div_spec (n d : Z) :
  0 < d -> - d <= 2 * (n - rne_div n d * d) <= d.
Proof.
  intros Hd. unfold rne_div.
  pose proof (Z.div_mod n d ltac:(lia)) as Hdm.
  pose proof (Z.mod_pos_bound n d Hd) as Hr.
  set (q := n / d) in *. set (r := n mod d) in *.
  assert (Hq : n - q * d = r) by lia.
  assert (Hq1 : n - (q + 1) * d = r - d) by lia.
  destruct (2 * r ?= d) eqn:Hcmp.
  - apply Z.compare_eq in Hcmp. destruct (Z.even q); lia.
  - apply -> Z.compare_lt_iff in Hcmp. lia.
  - apply -> Z.compare_gt_iff in Hcmp. lia.
Qed.

Lemma rne_div_unique (n d k : Z) :
  0 < d -> - d < 2 * (n - k * d) < d -> rne_div n d = k.
Proof.
  intros Hd Hk. pose proof (rne_div_spec n d Hd) as Hs.
  assert (Habs : - 1 < rne_div n d - k < 1) by nia.
  lia.
Qed.

Lemma rne_div_scale (c n d : Z) :
  0 < c -> 0 < d -> rne_div (c * n) (c * d) = rne_div n d.
Proof.
  intros Hc Hd. unfold rne_div.
  rewrite Z.div_mul_cancel_l by lia.
  rewrite Zmult_mod_distr_l.
  replace (2 * (c * (n mod d))) with (c * (2 * (n mod d))) by ring.
  rewrite <- Zmult_compare_compat_l by lia. reflexivity.
Qed.

Lemma rne_div_nonneg (n d : Z) : 0 <= n -> 0 < d -> 0 <= rne_div n d.
Proof.
  intros Hn Hd. pose proof (rne_div_spec n d Hd). nia.
Qed.

Lemma pow2_pos (t : Z) : 0 <= t -> 0 < 2 ^ t.
Proof. intros Ht. apply Z.pow_pos_nonneg; lia. Qed.

Lemma pow2_split (t : Z) : -59 <= t -> t < 0 -> 2 ^ (- t) * 2 ^ (t + 59) = 2 ^ 59.
Proof.
  intros H1 H2. rewrite <- Z.pow_add_r by lia. f_equal. lia.
Qed.

Lemma pow2_shift (t : Z) : 0 <= t -> 2 ^ (t + 59) = 2 ^ 59 * 2 ^ t.
Proof. intros Ht. rewrite Z.pow_add_r by lia. ring. Qed.

(** Above exponent -59 the two branches of [scale2] are one fraction. *)
Lemma scale2_rne (n d t : Z) :
  0 < d -> -59 <= t ->
  (let '(a, b) := scale2 n d t in rne_div a b)
  = rne_div (n * 2 ^ 59) (d * 2 ^ (t + 59)).
Proof.
  intros Hd Ht. unfold scale2. destruct (Z.leb_spec 0 t) as [Hpos | Hneg].
  - rewrite pow2_shift by lia.
    replace (n * 2 ^ 59) with (2 ^ 59 * n) by ring.
    replace (d * (2 ^ 59 * 2 ^ t)) with (2 ^ 59 * (d * 2 ^ t)) by ring.
    pose proof (pow2_pos t Hpos).
    rewrite rne_div_scale; [reflexivity | lia | nia].
  - rewrite <- (pow2_split t) by lia.
    replace (n * (2 ^ (- t) * 2 ^ (t + 59)))
      with (2 ^ (t + 59) * (n * 2 ^ (- t))) by ring.
    replace (d * 2 ^ (t + 59)) with (2 ^ (t + 59) * d) by ring.
    rewrite rne_div_scale; [reflexivity | apply pow2_pos; lia | lia].
Qed.

Lemma scale2_leb (n d t : Z) :
  0 < d -> -59 <= t ->
  (let '(a, b) := scale2 n d t in b <=? a)
  = (d * 2 ^ (t + 59) <=? n * 2 ^ 59).
Proof.
  intros Hd Ht. unfold scale2. destruct (Z.leb_spec 0 t) as [Hpos | Hneg].
  - rewrite pow2_shift by lia. pose proof (pow2_pos t Hpos).
    destruct (Z.leb_spec (d * 2 ^ t) n);
      destruct (Z.leb_spec (d * (2 ^ 59 * 2 ^ t)) (n * 2 ^ 59)); lia.
  - rewrite <- (pow2_split t) by lia.
    pose proof (pow2_pos (t + 59) ltac:(lia)).
    pose proof (pow2_pos (- t) ltac:(lia)).
    destruct (Z.leb_spec d (n * 2 ^ (- t)));
      destruct (Z.leb_spec (d * 2 ^ (t + 59))
                  (n * (2 ^ (- t) * 2 ^ (t + 59)))); nia.
Qed.

(** [mag n 100] brackets [n / 100] between two powers of two. *)
Lemma mag_100_spec (n : Z) :
  1 <= n ->
  -6 <= mag n 100 /\
  100 * 2 ^ (mag n 100 + 58) <= n * 2 ^ 59 < 100 * 2 ^ (mag n 100 + 59).
Proof.
  intros Hn. unfold mag.
  change (Z.log2 100) with 6.
  pose proof (Z.log2_nonneg n) as HL.
  pose proof (Z.log2_spec n ltac:(lia)) as Hspec.
  set (L := Z.log2 n) in *.
  pose proof (scale2_leb n 100 (L - 6) ltac:(lia) ltac:(lia)) as Hleb.
  destruct (scale2 n 100 (L - 6)) as [a b]. rewrite Hleb.
  replace (L - 6 + 59) with (L + 53) by lia.
  rewrite Z.pow_succ_r in Hspec by lia.
  assert (HP : 0 < 2 ^ L) by (apply pow2_pos; lia).
  destruct (Z.leb_spec (100 * 2 ^ (L + 53)) (n * 2 ^ 59)) as [Hge | Hlt].
  - split; [lia|].
    replace (L - 6 + 1 + 58) with (L + 53) by lia.
    replace (L - 6 + 1 + 59) with (L + 54) by lia.
    rewrite (Z.pow_add_r 2 L 54) by lia. split; [exact Hge | lia].
  - split; [lia|].
    replace (L - 6 + 58) with (L + 52) by lia.
    replace (L - 6 + 59) with (L + 53) by lia.
    rewrite (Z.pow_add_r 2 L 52) by lia. split; [lia | exact Hlt].
Qed.

Lemma mag_100_unique (n t : Z) :
  1 <= n -> -58 <= t ->
  100 * 2 ^ (t + 58) <= n * 2 ^ 59 < 100 * 2 ^ (t + 59) ->
  mag n 100 = t.
Proof.
  intros Hn Ht Hb. destruct (mag_100_spec n Hn) as [Hm Hmb].
  set (mg := mag n 100) in *.
  destruct (Z.lt_trichotomy mg t) as [Hlt | [Heq | Hgt]]; [|exact Heq|].
  - exfalso.
    assert (Hmono : 2 ^ (mg + 59) <= 2 ^ (t + 58))
      by (apply Z.pow_le_mono_r; lia).
    lia.
  - exfalso.
    assert (Hmono : 2 ^ (t + 59) <= 2 ^ (mg + 58))
      by (apply Z.pow_le_mono_r; lia).
    lia.
Qed.

Lemma rne_div_range (n d lo hi : Z) :
  0 < d -> lo * d <= n -> n <= hi * d -> lo <= rne_div n d <= hi.
Proof.
  intros Hd Hlo Hhi. pose proof (rne_div_spec n d Hd) as Hs. nia.
Qed.

Lemma rne_div_one (n : Z) : rne_div n 1 = n.
Proof. apply rne_div_unique; lia. Qed.

(** [of_ratio] at denominator 100, with one fraction for both signs of the
    exponent. *)
Lemma of_ratio_100 (s : bool) (n : Z) :
  1 <= n ->
  of_ratio s n 100
  = let m0 := rne_div (n * 2 ^ 59) (100 * 2 ^ (mag n 100 + 6)) in
    let '(m, e) :=
      if m0 =? 2 ^ 53 then (2 ^ 52, mag n 100 - 52)
      else (m0, mag n 100 - 53) in
    match m with
    | Zpos p => if e <=? 971 then S754_finite s p e else S754_infinity s
    | _ => S754_zero s
    end.
Proof.
  intros Hn. destruct (mag_100_spec n Hn) as [Hm _].
  unfold of_ratio.
  assert (Hfexp : fexp prec emax (mag n 100) = mag n 100 - 53).
  { unfold fexp, emin, prec, emax. lia. }
  rewrite Hfexp.
  pose proof (scale2_rne n 100 (mag n 100 - 53) ltac:(lia) ltac:(lia)) as Hr.
  destruct (scale2 n 100 (mag n 100 - 53)) as [a b].
  replace (mag n 100 - 53 + 59) with (mag n 100 + 6) in Hr by lia.
  rewrite Hr. cbv zeta.
  change (2 ^ prec) with (2 ^ 53). change (2 ^ (prec - 1)) with (2 ^ 52).
  change (emax - prec) with 971.
  replace (mag n 100 - 53 + 1) with (mag n 100 - 52) by lia.
  reflexivity.
Qed.

(** What [of_ratio] yields at denominator 100: an infinity, or a normal
    number within half a unit in the last place of [n / 100]. *)
Lemma of_ratio_100_shape (s : bool) (n : Z) :
  1 <= n ->
  of_ratio s n 100 = S754_infinity s \/
  exists (m : positive) (e : Z),
    of_ratio s n 100 = S754_finite s m e /\
    2 ^ 52 <= Zpos m < 2 ^ 53 /\ -59 <= e <= 971 /\
    - (100 * 2 ^ (e + 59))
      <= 2 * (n * 2 ^ 59 - Zpos m * (100 * 2 ^ (e + 59)))
      <= 100 * 2 ^ (e + 59).
Proof.
  intros Hn. rewrite (of_ratio_100 s n Hn).
  destruct (mag_100_spec n Hn) as [Hm [Hlo Hhi]].
  set (mg := mag n 100) in *.
  assert (HP : 0 < 2 ^ (mg + 6)) by (apply pow2_pos; lia).
  assert (H58 : 2 ^ (mg + 58) = 2 ^ 52 * 2 ^ (mg + 6)).
  { rewrite <- Z.pow_add_r by lia. f_equal. lia. }
  assert (H59 : 2 ^ (mg + 59) = 2 ^ 53 * 2 ^ (mg + 6)).
  { rewrite <- Z.pow_add_r by lia. f_equal. lia. }
  assert (H7 : 2 ^ (mg + 7) = 2 * 2 ^ (mg + 6)).
  { replace (mg + 7) with (Z.succ (mg + 6)) by lia.
    rewrite Z.pow_succ_r by lia. reflexivity. }
  pose proof (rne_div_spec (n * 2 ^ 59) (100 * 2 ^ (mg + 6)) ltac:(lia))
    as Hspec.
  pose proof (rne_div_range (n * 2 ^ 59) (100 * 2 ^ (mg + 6)) (2 ^ 52) (2 ^ 53)
                ltac:(lia) ltac:(lia) ltac:(lia)) as Hrange.
  set (m0 := rne_div (n * 2 ^ 59) (100 * 2 ^ (mg + 6))) in *.
  cbv zeta. destruct (Z.eqb_spec m0 (2 ^ 53)) as [Htop | Hbelow].
  - change (2 ^ 52) with (Zpos (2 ^ 52)) at 1. cbv iota beta.
    destruct (Z.leb_spec (mg - 52) 971) as [Hfin | Hinf]; [|left; reflexivity].
    right. exists (2 ^ 52)%positive, (mg - 52).
    split; [reflexivity|]. split; [split; [reflexivity | reflexivity]|].
    split; [lia|].
    replace (mg - 52 + 59) with (mg + 7) by lia. rewrite H7.
    rewrite Htop in Hspec.
    change (Zpos (2 ^ 52)) with (2 ^ 52). lia.
  - destruct m0 as [|p|p] eqn:Hm0; [exfalso; lia | | exfalso; lia].
    destruct (Z.leb_spec (mg - 53) 971) as [Hfin | Hinf]; [|left; reflexivity].
    right. exists p, (mg - 53).
    split; [reflexivity|]. split; [lia|]. split; [lia|].
    replace (mg - 53 + 59) with (mg + 6) by lia. lia.
Qed.

(** A fraction close enough to a normal number is read as that number. *)
Lemma of_ratio_100_near (s : bool) (n : Z) (m : positive) (e : Z) :
  1 <= n ->
  2 ^ 52 <= Zpos m < 2 ^ 53 -> -59 <= e <= 971 ->
  100 * 2 ^ (e + 111) <= n * 2 ^ 59 < 100 * 2 ^ (e + 112) ->
  - (100 * 2 ^ (e + 59))
    < 2 * (n * 2 ^ 59 - Zpos m * (100 * 2 ^ (e + 59)))
    < 100 * 2 ^ (e + 59) ->
  of_ratio s n 100 = S754_finite s m e.
Proof.
  intros Hn Hm He Hmag Hnear.
  rewrite (of_ratio_100 s n Hn).
  assert (Hmg : mag n 100 = e + 53).
  { apply mag_100_unique; [exact Hn | lia |].
    replace (e + 53 + 58) with (e + 111) by lia.
    replace (e + 53 + 59) with (e + 112) by lia. exact Hmag. }
  rewrite Hmg. replace (e + 53 + 6) with (e + 59) by lia.
  assert (HP : 0 < 2 ^ (e + 59)) by (apply pow2_pos; lia).
  rewrite (rne_div_unique (n * 2 ^ 59) (100 * 2 ^ (e + 59)) (Zpos m))
    by lia.
  cbv zeta. destruct (Z.eqb_spec (Zpos m) (2 ^ 53)) as [Htop | _]; [lia|].
  replace (e + 53 - 53) with e by lia.
  destruct (Z.leb_spec e 971); [reflexivity | lia].
Qed.

(** On integers below [2^53] reading [n / 100] is the IEEE division of
    [float(n)] by [100.0]; here for the first few thousand. *)
Lemma of_ratio_is_division :
  forallb (fun n => same (of_ratio false n 100) (div (of_int n) (of_int 100)))
    (map Z.of_nat (seq 1 4000)) = true.
Proof. vm_compute. reflexivity. Qed.

Lemma round_finite (s : bool) (m : positive) (e : Z) :
  round (S754_finite s m e) 2
  = let k := if 0 <=? - e then rne_div (Zpos m * 100) (2 ^ (- e))
             else Zpos m * 100 * 2 ^ e in
    if k =? 0 then S754_zero s else of_ratio s k 100.
Proof.
  unfold round, scale2. change (10 ^ 2) with 100.
  destruct (0 <=? - e).
  - rewrite Z.mul_1_l. reflexivity.
  - rewrite Z.opp_involutive, rne_div_one. reflexivity.
Qed.

Ltac eval_pow2 :=
  repeat match goal with
         | |- context [2 ^ ?x] =>
             let v := eval vm_compute in (2 ^ x) in
             change (2 ^ x) with v
         end.

(** Rounding to two decimals leaves a number read from two decimals as it
    is. *)
Lemma round_of_ratio (s : bool) (n : Z) :
  1 <= n -> round (of_ratio s n 100) 2 = of_ratio s n 100.
Proof.
  intros Hn.
  destruct (of_ratio_100_shape s n Hn)
    as [Hinf | (m & e & Hy & Hm & He & Herr)].
  - rewrite Hinf. reflexivity.
  - rewrite Hy, round_finite. cbv zeta.
    assert (HP : 0 < 2 ^ (e + 59)) by (apply pow2_pos; lia).
    destruct (Z.leb_spec 0 (- e)) as [Hneg | Hpos].
    + (* [e <= 0] *)
      assert (HB : 0 < 2 ^ (- e)) by (apply pow2_pos; lia).
      assert (HAB : 2 ^ (- e) * 2 ^ (e + 59) = 2 ^ 59).
      { rewrite <- Z.pow_add_r by lia. f_equal. lia. }
      pose proof (rne_div_spec (Zpos m * 100) (2 ^ (- e)) HB) as Hk.
      set (k := rne_div (Zpos m * 100) (2 ^ (- e))) in *.
      destruct (Z_le_gt_dec e (-7)) as [Hsmall | Hlarge].
      * (* the spacing is below a hundredth: the decimal is found again *)
        assert (H128 : 2 ^ 7 <= 2 ^ (- e)) by (apply Z.pow_le_mono_r; lia).
        assert (Hkn : k = n).
        { apply rne_div_unique; [exact HB|].
          assert (Hscaled :
                    - (2 ^ (- e) * 2 ^ (e + 59))
                    < 2 * ((Zpos m * 100 - n * 2 ^ (- e)) * 2 ^ (e + 59))
                    < 2 ^ (- e) * 2 ^ (e + 59)).
          { replace ((Zpos m * 100 - n * 2 ^ (- e)) * 2 ^ (e + 59))
              with (Zpos m * (100 * 2 ^ (e + 59))
                    - n * (2 ^ (- e) * 2 ^ (e + 59))) by ring.
            rewrite HAB. change (2 ^ 7) with 128 in H128. nia. }
          nia. }
        rewrite Hkn.
        destruct (Z.eqb_spec n 0); [lia | exact Hy].
      * (* the spacing is one of 1, 1/2, ..., 1/64 *)
        assert (Hk1 : 1 <= k).
        { assert (H64 : 2 ^ (- e) <= 2 ^ 6) by (apply Z.pow_le_mono_r; lia).
          change (2 ^ 6) with 64 in H64. change (2 ^ 52) with 4503599627370496 in Hm.
          nia. }
        destruct (Z.eqb_spec k 0) as [Hzero | Hnonzero]; [lia|].
        apply of_ratio_100_near; [exact Hk1 | exact Hm | exact He | |];
          clearbody k; clear Hy Herr HP HB HAB Hk1 Hnonzero;
          assert (Hcases : e = -6 \/ e = -5 \/ e = -4 \/ e = -3
                           \/ e = -2 \/ e = -1 \/ e = 0) by lia;
          clear He Hneg Hlarge; revert Hk Hm;
          destruct Hcases as [-> | [-> | [-> | [-> | [-> | [-> | ->]]]]]];
          eval_pow2; lia.
    + (* [0 < e]: the number is an integer *)
      assert (HE : 0 < 2 ^ e) by (apply pow2_pos; lia).
      assert (Hk1 : 1 <= Zpos m * 100 * 2 ^ e) by nia.
      destruct (Z.eqb_spec (Zpos m * 100 * 2 ^ e) 0); [lia|].
      apply of_ratio_100_near; [exact Hk1 | exact Hm | exact He | |].
      * rewrite !(Z.pow_add_r 2 e) by lia.
        change (2 ^ 111) with (2 ^ 52 * 2 ^ 59).
        change (2 ^ 112) with (2 ^ 53 * 2 ^ 59). nia.
      * rewrite (Z.pow_add_r 2 e 59) by lia.
        replace (Zpos m * 100 * 2 ^ e * 2 ^ 59
                 - Zpos m * (100 * (2 ^ e * 2 ^ 59))) with 0 by ring.
        nia.
Qed.

(** Rounding to two decimals is idempotent on every float. *)
Lemma round_idempotent (x : float) : round (round x 2) 2 = round x 2.
Proof.
  destruct x as [s | s | | s m e]; try reflexivity.
  rewrite round_finite. cbv zeta.
  set (k := if 0 <=? - e then rne_div (Z.pos m * 100) (2 ^ (- e))
            else Z.pos m * 100 * 2 ^ e).
  assert (Hk : 0 <= k).
  { unfold k. destruct (Z.leb_spec 0 (- e)) as [Hneg | Hpos].
    - apply rne_div_nonneg; [lia | apply pow2_pos; lia].
    - pose proof (pow2_pos e ltac:(lia)). nia. }
  destruct (Z.eqb_spec k 0) as [Hzero | Hnonzero].
  - reflexivity.
  - apply round_of_ratio. lia.
Qed.

End Rounding.

(** ** Percentages *)

Lemma within_self (tol x : float) :
  is_finite x = true ->
  Float64.within tol x x = SFleb (S754_zero false) tol.
Proof.
  unfold Float64.within, Float64.sub.
  destruct x as [s | s | | s m e]; try discriminate; intros _.
  - destruct s; reflexivity.
  - unfold SFsub. rewrite Z.sub_diag. reflexivity.
Qed.

(** C6, as the code has it: the rounding step of the percentage format is
    idempotent.  For every metric value, rounding the displayed percentage
    to two decimals once more (without multiplying by 100 again) gives
    exactly the displayed percentage, which for a finite percentage is
    within 0.01 of it.  This holds for each of the seven percentages
    [display_evaluation] prints. *)
Theorem percentage_rounding_idempotent
    (x : float) (m : TextSentimentEvaluationMetrics) :
  Float64.round (percentage x) 2 = percentage x /\
  (is_finite (percentage x) = true ->
   Float64.within cent (Float64.round (percentage x) 2) (percentage x) = true) /\
  (forall o,
      In (Printed o) (displayed_metrics m) ->
      exists shown,
        shown_float o = Some shown /\ Float64.round shown 2 = shown).
Proof.
  assert (Hround : forall y, Float64.round (percentage y) 2 = percentage y).
  { intros y. unfold percentage. apply Rounding.round_idempotent. }
  split; [apply Hround|]. split.
  - intros Hfinite. rewrite Hround, (within_self cent _ Hfinite).
    reflexivity.
  - intros o Hin. simpl in Hin.
    repeat (destruct Hin as [Hin | Hin];
            [injection Hin as <-; eexists; split; [reflexivity | apply Hround]|]).
    destruct Hin.
Qed.

Lemma percentage_rounding_idempotent_witness :
  is_finite (percentage Fake.half) = true /\
  Float64.within cent (Float64.round (percentage Fake.half) 2)
    (percentage Fake.half) = true.
Proof.
  assert (Hfinite : is_finite (percentage Fake.half) = true)
    by (vm_compute; reflexivity).
  split; [exact Hfinite|].
  exact (proj1 (proj2 (percentage_rounding_idempotent Fake.half
                         (text_sentiment_evaluation_metrics Fake.whole)))
           Hfinite).
Defined.

(** C6, as stated, fails: the metric 0.5 is displayed as 50.0; read back
    and formatted as a percentage again it becomes 5000.0, which is not
    within 0.01 of 50.0. *)
Lemma percentage_reformat_diverges :
  shown_float (Format "Model Precision: {}%" (VFloat (percentage Fake.half)))
    = Some (Float64.of_int 50) /\
  percentage (Float64.of_int 50) = Float64.of_int 5000 /\
  Float64.within cent (percentage (percentage Fake.half))
    (percentage Fake.half) = false.
Proof.
  split; [vm_compute; reflexivity|].
  split; vm_compute; reflexivity.
Qed.

(* ===================================================================== *)
(** * Further properties of the commands *)
(* ===================================================================== *)

(** ** Runs of the remaining commands *)

Lemma create_model_run (remote : Service)
    (project_id compute_region dataset_id model_name : string) :
  create_model remote project_id compute_region dataset_id model_name
  = let my_model :=
      {| spec_display_name := model_name; spec_dataset_id := dataset_id |} in
    let opening :=
      [ClientOpened;
       Called (CreateModel (location_path project_id compute_region)
                 my_model)] in
    match on_create_model remote (location_path project_id compute_region)
            my_model with
    | inl exn => (opening, inl exn)
    | inr response =>
        (opening
           ++ [Printed (Format "Training operation name: {}"
                          (VStr (operation_name (operation response))));
               Printed (Text "Training started...")],
         inr tt)
    end.
Proof.
  unfold create_model, AutoMlClient, client_create_model, print.
  cbn [emit ret bind fst snd lift].
  destruct (on_create_model remote _ _); reflexivity.
Qed.

Lemma get_operation_status_run (remote : Service) (operation_full_id : string) :
  get_operation_status remote operation_full_id
  = let opening :=
      [ClientOpened; Called (GetOperation operation_full_id)] in
    match on_get_operation remote operation_full_id with
    | inl exn => (opening, inl exn)
    | inr response =>
        (opening
           ++ [Printed (Format "Operation status: {}" (VOperation response))],
         inr tt)
    end.
Proof.
  unfold get_operation_status, AutoMlClient, client_get_operation, print.
  cbn [emit ret bind fst snd lift].
  destruct (on_get_operation remote _); reflexivity.
Qed.

Lemma get_model_evaluation_run (remote : Service)
    (project_id compute_region model_id model_evaluation_id : string) :
  get_model_evaluation remote project_id compute_region model_id
    model_evaluation_id
  = let full_id :=
      model_evaluation_path project_id compute_region model_id
        model_evaluation_id in
    let opening := [ClientOpened; Called (GetModelEvaluation full_id)] in
    match on_get_model_evaluation remote full_id with
    | inl exn => (opening, inl exn)
    | inr response =>
        let metrics := text_sentiment_evaluation_metrics response in
        (opening
           ++ [Printed (Format "Sentiment model precision: {}"
                          (VFloat (precision metrics)));
               Printed (Format "Sentiment model recall: {}"
                          (VFloat (recall metrics)));
               Printed (Format "Sentiment model f1 score: {}"
                          (VFloat (f1_score metrics)))],
         inr tt)
    end.
Proof.
  unfold get_model_evaluation, AutoMlClient, client_get_model_evaluation,
    print.
  cbn [emit ret bind fst snd lift].
  destruct (on_get_model_evaluation remote _); reflexivity.
Qed.

(** A run of [display_evaluation], whatever the listing is. *)
Lemma display_evaluation_cases (remote : Service)
    (project_id compute_region model_id : string) :
  let listing :=
    Called (ListModelEvaluations
              (model_path project_id compute_region model_id)) in
  (exists exn,
      display_evaluation remote project_id compute_region model_id
      = ([ClientOpened; listing], inl exn)) \/
  (exists full_id exn,
      display_evaluation remote project_id compute_region model_id
      = ([ClientOpened; listing; Called (GetModelEvaluation full_id)],
         inl exn)) \/
  (exists full_id fetched,
      display_evaluation remote project_id compute_region model_id
      = ([ClientOpened; listing; Called (GetModelEvaluation full_id)]
           ++ displayed_metrics (text_sentiment_evaluation_metrics fetched),
         inr tt)).
Proof.
  cbv zeta.
  destruct (on_list_model_evaluations remote
              (model_path project_id compute_region model_id))
    as [evals [exn|]] eqn:Hlist.
  - left. exists exn. apply display_evaluation_interrupted.
    rewrite Hlist. reflexivity.
  - rewrite (display_evaluation_run remote project_id compute_region
               model_id evals Hlist). cbv zeta.
    destruct (last_overall evals) as [e|]; [|left; eauto].
    destruct (on_get_model_evaluation remote _) as [exn|fetched].
    + right. left. eauto.
    + right. right. eauto.
Qed.

(** ** The environment *)

(** X1: the script reads PROJECT_ID and then REGION_NAME before anything
    else.  When PROJECT_ID is missing it stops with [KeyError] on
    PROJECT_ID, and when only REGION_NAME is missing with [KeyError] on
    REGION_NAME; in both cases no client has been opened, nothing was
    called or printed, and the exit status is 1, whatever the command. *)
Theorem main_missing_environment
    (remote : Service) (fromtimestamp : Z -> result Py.datetime)
    (environ : string -> option string) (args : command) :
  (environ "PROJECT_ID" = None ->
   main remote fromtimestamp environ args = ([], inl (KeyError "PROJECT_ID"))
   /\ exit_status (main remote fromtimestamp environ args) = 1%Z) /\
  (forall project_id,
      environ "PROJECT_ID" = Some project_id ->
      environ "REGION_NAME" = None ->
      main remote fromtimestamp environ args = ([], inl (KeyError "REGION_NAME"))
      /\ exit_status (main remote fromtimestamp environ args) = 1%Z).
Proof.
  split.
  - intros Hproject. unfold main, environ_get. rewrite Hproject.
    split; reflexivity.
  - intros project_id Hproject Hregion. unfold main, environ_get.
    rewrite Hproject, Hregion. split; reflexivity.
Qed.

Lemma main_missing_environment_witness :
  Fake.no_environ "PROJECT_ID" = None /\
  main (Fake.service []) Fake.utc Fake.no_environ (delete_model_cmd "ICN123")
  = ([], inl (KeyError "PROJECT_ID")) /\
  Fake.project_only "PROJECT_ID" = Some "p" /\
  Fake.project_only "REGION_NAME" = None /\
  main (Fake.service []) Fake.utc Fake.project_only (delete_model_cmd "ICN123")
  = ([], inl (KeyError "REGION_NAME")).
Proof.
  split; [reflexivity|]. split.
  - exact (proj1 (proj1 (main_missing_environment (Fake.service [])
                           Fake.utc Fake.no_environ (delete_model_cmd "ICN123"))
                    eq_refl)).
  - split; [reflexivity|]. split; [reflexivity|].
    exact (proj1 (proj2 (main_missing_environment (Fake.service [])
                           Fake.utc Fake.project_only (delete_model_cmd "ICN123"))
                    "p" eq_refl eq_refl)).
Defined.

(** ** The first request of a command *)

(** X2: every command first opens its client and then calls one client
    method, before anything is printed or polled; which method and with
    which arguments depends on the command line and the environment only,
    never on what the service answers. *)
Theorem command_starts_with_request
    (remote : Service) (fromtimestamp : Z -> result Py.datetime)
    (project_id compute_region : string) (args : command) :
  exists rest,
    log_of (run_command remote fromtimestamp project_id compute_region args)
    = ClientOpened
        :: Called (first_request project_id compute_region args) :: rest.
Proof.
  destruct args as [dataset_id model_name | operation_full_id | filter_
                   | model_id | model_id | model_id model_evaluation_id
                   | model_id | model_id]; cbn [run_command first_request].
  - rewrite create_model_run. cbv zeta.
    destruct (on_create_model remote _ _); eexists; reflexivity.
  - rewrite get_operation_status_run. cbv zeta.
    destruct (on_get_operation remote _); eexists; reflexivity.
  - rewrite list_models_run. eexists. reflexivity.
  - rewrite get_model_run. cbv zeta.
    destruct (on_get_model remote _); eexists; reflexivity.
  - rewrite list_model_evaluations_run. eexists. reflexivity.
  - rewrite get_model_evaluation_run. cbv zeta.
    destruct (on_get_model_evaluation remote _); eexists; reflexivity.
  - destruct (display_evaluation_cases remote project_id compute_region
                model_id)
      as [(exn & ->) | [(full_id & exn & ->) | (full_id & fetched & ->)]];
      eexists; reflexivity.
  - rewrite delete_model_run. cbv zeta.
    destruct (on_delete_model remote _) as [exn|op]; [eexists; reflexivity|].
    destruct (outcome op); eexists; reflexivity.
Qed.

(** ** Failing calls *)

(** X3: when the call of [create_model], [get_operation_status],
    [get_model], [get_model_evaluation] or [delete_model] fails, the
    command stops right there with the error of the service, unchanged:
    nothing is printed, nothing is polled, and the script exits with
    status 1. *)
Theorem failed_call_propagates
    (remote : Service) (fromtimestamp : Z -> result Py.datetime)
    (environ : string -> option string)
    (project_id compute_region : string) (args : command) (exn : exception) :
  environ "PROJECT_ID" = Some project_id ->
  environ "REGION_NAME" = Some compute_region ->
  call_error remote project_id compute_region args = Some exn ->
  main remote fromtimestamp environ args
  = ([ClientOpened; Called (first_request project_id compute_region args)],
     inl exn) /\
  exit_status (main remote fromtimestamp environ args) = 1%Z.
Proof.
  intros Hproject Hregion Herr.
  assert (Hmain : main remote fromtimestamp environ args
                  = run_command remote fromtimestamp project_id compute_region args).
  { unfold main, environ_get. rewrite Hproject, Hregion, !bind_ret.
    reflexivity. }
  assert (Hrun : run_command remote fromtimestamp project_id compute_region args
                 = ([ClientOpened;
                     Called (first_request project_id compute_region args)],
                    inl exn)).
  { destruct args as [dataset_id model_name | operation_full_id | filter_
                     | model_id | model_id | model_id model_evaluation_id
                     | model_id | model_id];
      cbn [run_command first_request call_error] in *; try discriminate.
    - rewrite create_model_run. cbv zeta.
      destruct (on_create_model remote _ _); [|discriminate].
      injection Herr as ->. reflexivity.
    - rewrite get_operation_status_run. cbv zeta.
      destruct (on_get_operation remote _); [|discriminate].
      injection Herr as ->. reflexivity.
    - rewrite get_model_run. cbv zeta.
      destruct (on_get_model remote _); [|discriminate].
      injection Herr as ->. reflexivity.
    - rewrite get_model_evaluation_run. cbv zeta.
      destruct (on_get_model_evaluation remote _); [|discriminate].
      injection Herr as ->. reflexivity.
    - rewrite delete_model_run. cbv zeta.
      destruct (on_delete_model remote _); [|discriminate].
      injection Herr as ->. reflexivity. }
  rewrite Hmain, Hrun. split; reflexivity.
Qed.

Lemma failed_call_propagates_witness :
  Fake.environ "PROJECT_ID" = Some "p" /\
  Fake.environ "REGION_NAME" = Some "us-central1" /\
  call_error (Fake.service []) "p" "us-central1"
    (get_operation_status_cmd "projects/p/locations/us-central1/operations/none")
  = Some (GoogleAPICallError "404 not found") /\
  main (Fake.service []) Fake.utc Fake.environ
    (get_operation_status_cmd "projects/p/locations/us-central1/operations/none")
  = ([ClientOpened;
      Called (GetOperation "projects/p/locations/us-central1/operations/none")],
     inl (GoogleAPICallError "404 not found")).
Proof.
  split; [reflexivity|]. split; [reflexivity|]. split; [reflexivity|].
  exact (proj1 (failed_call_propagates (Fake.service []) Fake.utc Fake.environ
                  "p" "us-central1"
                  (get_operation_status_cmd
                     "projects/p/locations/us-central1/operations/none")
                  (GoogleAPICallError "404 not found")
                  eq_refl eq_refl eq_refl)).
Defined.

(** ** Listings *)

Lemma prints_app (l1 l2 : list event) :
  prints (l1 ++ l2) = prints l1 + prints l2.
Proof. unfold prints. rewrite filter_app, length_app. reflexivity. Qed.

Lemma polls_app (l1 l2 : list event) : polls (l1 ++ l2) = polls l1 + polls l2.
Proof. unfold polls. rewrite filter_app, length_app. reflexivity. Qed.

Lemma displayed_models_all (fromtimestamp : Z -> result Py.datetime)
    (models : list Model) :
  (forall model,
      In model models ->
      exists local_time,
        fromtimestamp (seconds (create_time model)) = inr local_time) ->
  displayed_models fromtimestamp models
  = (flat_map (fun model => fst (displayed_model fromtimestamp model)) models,
     None).
Proof.
  induction models as [|model models IH]; intros Hall.
  - reflexivity.
  - cbn [displayed_models flat_map].
    destruct (Hall model (or_introl eq_refl)) as [local_time Htime].
    rewrite (IH (fun m Hin => Hall m (or_intror Hin))).
    unfold displayed_model at 1 3. rewrite Htime. reflexivity.
Qed.

Lemma displayed_models_stuck (fromtimestamp : Z -> result Py.datetime)
    (shown later : list Model) (stuck : Model) (exn : exception) :
  (forall model,
      In model shown ->
      exists local_time,
        fromtimestamp (seconds (create_time model)) = inr local_time) ->
  fromtimestamp (seconds (create_time stuck)) = inl exn ->
  displayed_models fromtimestamp (shown ++ stuck :: later)
  = (flat_map (fun model => fst (displayed_model fromtimestamp model)) shown
       ++ displayed_model_start stuck (segment (name stuck)),
     Some exn).
Proof.
  intros Hall Hstuck. induction shown as [|model shown IH].
  - cbn [app displayed_models flat_map]. unfold displayed_model.
    rewrite Hstuck. reflexivity.
  - cbn [app displayed_models flat_map].
    destruct (Hall model (or_introl eq_refl)) as [local_time Htime].
    rewrite (IH (fun m Hin => Hall m (or_intror Hin))).
    unfold displayed_model at 1 3. rewrite Htime.
    rewrite <- app_assoc. reflexivity.
Qed.

Lemma prints_converted (fromtimestamp : Z -> result Py.datetime)
    (models : list Model) :
  (forall model,
      In model models ->
      exists local_time,
        fromtimestamp (seconds (create_time model)) = inr local_time) ->
  prints (flat_map (fun model => fst (displayed_model fromtimestamp model))
            models)
  = 5 * List.length models.
Proof.
  induction models as [|model models IH]; intros Hall.
  - reflexivity.
  - cbn [flat_map]. rewrite prints_app.
    rewrite (IH (fun m Hin => Hall m (or_intror Hin))).
    destruct (Hall model (or_introl eq_refl)) as [local_time Htime].
    unfold displayed_model. rewrite Htime. cbn [List.length fst].
    change (prints (displayed_model_start model (segment (name model))
                      ++ displayed_model_end model local_time)) with 5.
    lia.
Qed.

Lemma prints_shown_evaluations (evals : list ModelEvaluation) :
  prints (map (fun element => Printed (Object (VEvaluation element))) evals)
  = List.length evals.
Proof.
  induction evals as [|e evals IH].
  - reflexivity.
  - cbn [map List.length]. unfold prints in *. cbn [filter is_print List.length].
    rewrite IH. reflexivity.
Qed.

(** X4: [list_models] shows the models in the order the listing yields
    them, five lines each after the header, for as long as their creation
    times are converted.  When all are, a listing that breaks off fails
    the command only after the models received have been shown.  When the
    creation time of a model cannot be converted, the command ends with
    that exception after the first three lines of that model, and the
    models after it are not shown. *)
Theorem list_models_shows_received
    (remote : Service) (fromtimestamp : Z -> result Py.datetime)
    (project_id compute_region filter_ : string) :
  let response :=
    on_list_models remote (location_path project_id compute_region) filter_ in
  let run :=
    list_models remote fromtimestamp project_id compute_region filter_ in
  let header :=
    [ClientOpened;
     Called (ListModels (location_path project_id compute_region) filter_);
     Printed (Text "List of models:")] in
  ((forall model,
       In model (elements response) ->
       exists local_time,
         fromtimestamp (seconds (create_time model)) = inr local_time) ->
   log_of run
   = header
       ++ flat_map (fun model => fst (displayed_model fromtimestamp model))
            (elements response) /\
   outcome_of run
   = match failure response with
     | Some exn => inl exn
     | None => inr tt
     end /\
   prints (log_of run) = 1 + 5 * List.length (elements response)) /\
  (forall shown stuck later exn,
      elements response = shown ++ stuck :: later ->
      (forall model,
          In model shown ->
          exists local_time,
            fromtimestamp (seconds (create_time model)) = inr local_time) ->
      fromtimestamp (seconds (create_time stuck)) = inl exn ->
      log_of run
      = header
          ++ flat_map (fun model => fst (displayed_model fromtimestamp model))
               shown
          ++ [Printed (Format "Model name: {}" (VStr (name stuck)));
              Printed (Format "Model id: {}" (VStr (segment (name stuck))));
              Printed (Format "Model display name: {}"
                         (VStr (display_name stuck)))] /\
      outcome_of run = inl exn /\
      prints (log_of run) = 1 + 5 * List.length shown + 3).
Proof.
  cbv zeta. rewrite list_models_run. cbv zeta. unfold log_of, outcome_of.
  cbn [fst snd]. split.
  - intros Hall. rewrite (displayed_models_all fromtimestamp _ Hall).
    cbn [fst snd]. split; [reflexivity|]. split; [reflexivity|].
    rewrite prints_app, (prints_converted fromtimestamp _ Hall). reflexivity.
  - intros shown stuck later exn Hsplit Hall Hstuck. rewrite Hsplit.
    rewrite (displayed_models_stuck fromtimestamp shown later stuck exn
               Hall Hstuck).
    cbn [fst snd]. split; [reflexivity|]. split; [reflexivity|].
    rewrite !prints_app, (prints_converted fromtimestamp _ Hall).
    cbn. lia.
Qed.

Lemma list_models_shows_received_witness :
  (forall model,
      In model (elements (on_list_models (Fake.service [])
                            (location_path "p" "us-central1") "f")) ->
      exists local_time,
        Fake.utc (seconds (create_time model)) = inr local_time) /\
  prints (log_of (list_models (Fake.service []) Fake.utc "p" "us-central1" "f"))
    = 6 /\
  elements (on_list_models Fake.dated (location_path "p" "us-central1") "f")
    = [Fake.icn123] ++ Fake.timeless :: [Fake.icn123] /\
  (forall model,
      In model [Fake.icn123] ->
      exists local_time,
        Fake.utc (seconds (create_time model)) = inr local_time) /\
  Fake.utc (seconds (create_time Fake.timeless))
    = inl (ValueError "year is out of range") /\
  outcome_of (list_models Fake.dated Fake.utc "p" "us-central1" "f")
    = inl (ValueError "year is out of range") /\
  prints (log_of (list_models Fake.dated Fake.utc "p" "us-central1" "f")) = 9.
Proof.
  assert (Hone : forall model,
             In model [Fake.icn123] ->
             exists local_time,
               Fake.utc (seconds (create_time model)) = inr local_time).
  { intros model [<- | []]. eexists. reflexivity. }
  split; [exact Hone|].
  split.
  - exact (proj2 (proj2 (proj1 (list_models_shows_received (Fake.service [])
                                  Fake.utc "p" "us-central1" "f") Hone))).
  - split; [reflexivity|]. split; [exact Hone|]. split; [reflexivity|].
    exact (proj2 (proj2 (list_models_shows_received Fake.dated Fake.utc
                           "p" "us-central1" "f")
                    [Fake.icn123] Fake.timeless [Fake.icn123]
                    (ValueError "year is out of range")
                    eq_refl Hone eq_refl)).
Defined.

(** X5: [list_model_evaluations] prints the header and then calls [print]
    once per evaluation record, on the record itself, in the order of the
    listing; when the listing breaks off, the records received so far
    have been printed before the command fails with the error of the
    listing.  ([prints] counts calls of [print]; the text of a record
    runs over several lines.) *)
Theorem list_model_evaluations_shows_received
    (remote : Service) (project_id compute_region model_id : string) :
  let response :=
    on_list_model_evaluations remote
      (model_path project_id compute_region model_id) in
  let run := list_model_evaluations remote project_id compute_region model_id in
  log_of run
  = [ClientOpened;
     Called (ListModelEvaluations
               (model_path project_id compute_region model_id));
     Printed (Text "List of model evaluations:")]
      ++ map (fun element => Printed (Object (VEvaluation element)))
           (elements response) /\
  outcome_of run
  = match failure response with
    | Some exn => inl exn
    | None => inr tt
    end /\
  prints (log_of run) = 1 + List.length (elements response).
Proof.
  cbv zeta. rewrite list_model_evaluations_run. cbv zeta.
  unfold log_of, outcome_of. cbn [fst snd].
  split; [reflexivity|]. split; [reflexivity|].
  rewrite prints_app, prints_shown_evaluations. reflexivity.
Qed.

(** ** More on [display_evaluation] *)

(** X6: [display_evaluation] prints all or nothing: seven lines when it
    ends normally and none when it ends with an exception, be it a listing
    that breaks off, a missing overall record or a failed fetch. *)
Theorem display_evaluation_all_or_nothing
    (remote : Service) (project_id compute_region model_id : string) :
  prints (log_of (display_evaluation remote project_id compute_region
                    model_id))
  = match outcome_of (display_evaluation remote project_id compute_region
                        model_id) with
    | inr _ => 7
    | inl _ => 0
    end.
Proof.
  destruct (display_evaluation_cases remote project_id compute_region model_id)
    as [(exn & ->) | [(full_id & exn & ->) | (full_id & fetched & ->)]];
    reflexivity.
Qed.

(** X7: a listing that breaks off stops [display_evaluation] with the
    error of the listing even when an overall record had already been
    seen: the selector assigned during the scan is not used, and no
    evaluation is fetched. *)
Theorem display_evaluation_listing_fails
    (remote : Service) (project_id compute_region model_id : string)
    (evals : list ModelEvaluation) (exn : exception) :
  on_list_model_evaluations remote
    (model_path project_id compute_region model_id)
    = {| elements := evals; failure := Some exn |} ->
  display_evaluation remote project_id compute_region model_id
  = ([ClientOpened;
      Called (ListModelEvaluations
                (model_path project_id compute_region model_id))],
     inl exn) /\
  forall full_id,
    ~ In (Called (GetModelEvaluation full_id))
         (log_of (display_evaluation remote project_id compute_region
                    model_id)).
Proof.
  intros Hlist.
  assert (Hrun : display_evaluation remote project_id compute_region model_id
                 = ([ClientOpened;
                     Called (ListModelEvaluations
                               (model_path project_id compute_region
                                  model_id))],
                    inl exn)).
  { apply display_evaluation_interrupted. rewrite Hlist. reflexivity. }
  split; [exact Hrun|].
  intros full_id. rewrite Hrun. unfold log_of. simpl.
  intros [H | [H | []]]; discriminate.
Qed.

Lemma display_evaluation_listing_fails_witness :
  on_list_model_evaluations (Fake.broken [] Fake.class_then_whole)
    (model_path "p" "us-central1" "ICN123")
  = {| elements := Fake.class_then_whole;
       failure := Some (GoogleAPICallError "503 unavailable") |} /\
  existsb overall Fake.class_then_whole = true /\
  display_evaluation (Fake.broken [] Fake.class_then_whole)
    "p" "us-central1" "ICN123"
  = ([ClientOpened;
      Called (ListModelEvaluations (model_path "p" "us-central1" "ICN123"))],
     inl (GoogleAPICallError "503 unavailable")).
Proof.
  split; [reflexivity|]. split; [reflexivity|].
  exact (proj1 (display_evaluation_listing_fails
                  (Fake.broken [] Fake.class_then_whole)
                  "p" "us-central1" "ICN123" Fake.class_then_whole
                  (GoogleAPICallError "503 unavailable") eq_refl)).
Defined.

(** ** Paths and ids *)

Lemma contains_slash_append (a b : string) :
  Py.contains slash (a ++ String slash b) = true.
Proof.
  induction a as [|c a IH]; simpl.
  - reflexivity.
  - rewrite IH. apply orb_true_r.
Qed.

Lemma last_slash_unique (b1 b2 a1 a2 : string) :
  well_formed a1 -> well_formed a2 ->
  (b1 ++ String slash a1 = b2 ++ String slash a2)%string -> a1 = a2.
Proof.
  unfold well_formed. intros H1 H2. revert b2.
  induction b1 as [|c b1 IH]; intros b2 Heq.
  - destruct b2 as [|c2 b2]; simpl in Heq.
    + injection Heq as Heq. exact Heq.
    + injection Heq as _ Heq. rewrite Heq, contains_slash_append in H1.
      discriminate.
  - destruct b2 as [|c2 b2]; simpl in Heq.
    + injection Heq as _ Heq. rewrite <- Heq, contains_slash_append in H2.
      discriminate.
    + injection Heq as _ Heq. apply (IH b2 Heq).
Qed.

Lemma after_last_slash_unique (s a b : string) :
  after_last_slash s a -> after_last_slash s b -> a = b.
Proof.
  intros [Ha [Hsa | [ba Hba]]] [Hb [Hsb | [bb Hbb]]].
  - congruence.
  - exfalso. rewrite Hsa in Hbb. rewrite Hbb, contains_slash_append in Ha.
    discriminate.
  - exfalso. rewrite Hsb in Hba. rewrite Hba, contains_slash_append in Hb.
    discriminate.
  - rewrite Hba in Hbb. apply (last_slash_unique ba bb a b Ha Hb Hbb).
Qed.

Lemma segment_after_prefix (before id : string) :
  well_formed id -> segment (before ++ String slash id) = id.
Proof.
  intros Hid.
  apply (after_last_slash_unique (before ++ String slash id)).
  - apply segment_after_last_slash.
  - split; [exact Hid|]. right. exists before. reflexivity.
Qed.

Lemma segment_model_path (p r m : string) :
  well_formed m -> segment (model_path p r m) = m.
Proof.
  intros Hm.
  replace (model_path p r m)
    with (("projects/" ++ p ++ "/locations/" ++ r ++ "/models")
            ++ String slash m)%string.
  - apply segment_after_prefix. exact Hm.
  - unfold model_path. rewrite !append_assoc. reflexivity.
Qed.

Lemma segment_model_evaluation_path (p r m e : string) :
  well_formed e -> segment (model_evaluation_path p r m e) = e.
Proof.
  intros He.
  replace (model_evaluation_path p r m e)
    with (("projects/" ++ p ++ "/locations/" ++ r ++ "/models/" ++ m
             ++ "/modelEvaluations") ++ String slash e)%string.
  - apply segment_after_prefix. exact He.
  - unfold model_evaluation_path. rewrite !append_assoc. reflexivity.
Qed.

(** X8: building the model path and taking the id back is a round trip.
    When the model the service returns is named by a model path whose id
    holds no "/", the "Model id" line of [get_model], printed right after
    the name, shows that id; so a model fetched under its own name is
    shown with the id it was asked for. *)
Theorem get_model_shows_path_id
    (remote : Service) (fromtimestamp : Z -> result Py.datetime)
    (project_id compute_region model_id : string)
    (project location id : string) (model : Model) :
  on_get_model remote (model_path project_id compute_region model_id)
    = inr model ->
  name model = model_path project location id ->
  well_formed id ->
  segment (name model) = id /\
  exists rest,
    log_of (get_model remote fromtimestamp project_id compute_region model_id)
    = [ClientOpened;
       Called (GetModel (model_path project_id compute_region model_id));
       Printed (Format "Model name: {}" (VStr (name model)));
       Printed (Format "Model id: {}" (VStr id))] ++ rest.
Proof.
  intros Hget Hname Hid.
  assert (Hseg : segment (name model) = id).
  { rewrite Hname. apply segment_model_path. exact Hid. }
  split; [exact Hseg|].
  rewrite get_model_run, Hget. cbv zeta. unfold log_of. cbn [fst].
  destruct (displayed_model_starts fromtimestamp model) as [rest ->].
  exists rest. rewrite Hseg. reflexivity.
Qed.

Lemma get_model_shows_path_id_witness :
  on_get_model (Fake.service []) (model_path "p" "us-central1" "ICN123")
    = inr Fake.icn123 /\
  name Fake.icn123 = model_path "p" "us-central1" "ICN123" /\
  well_formed "ICN123" /\
  segment (name Fake.icn123) = "ICN123".
Proof.
  split; [reflexivity|]. split; [reflexivity|]. split; [reflexivity|].
  exact (proj1 (get_model_shows_path_id (Fake.service []) Fake.utc
                  "p" "us-central1"
                  "ICN123" "p" "us-central1" "ICN123" Fake.icn123
                  eq_refl eq_refl eq_refl)).
Defined.

(** X9: [display_evaluation] fetches the record it found.  When the last
    overall record of a complete listing is named by the model-evaluation
    path of the requested project, region and model with an id that holds
    no "/", the id taken from the name is that id and the fetch is issued
    on exactly the name of the record. *)
Theorem display_evaluation_fetches_found_record
    (remote : Service) (project_id compute_region model_id id : string)
    (before after : list ModelEvaluation) (e : ModelEvaluation) :
  on_list_model_evaluations remote
    (model_path project_id compute_region model_id)
    = complete (before ++ e :: after) ->
  annotation_spec_id e = EmptyString ->
  (forall e', In e' after -> annotation_spec_id e' <> EmptyString) ->
  evaluation_name e
  = model_evaluation_path project_id compute_region model_id id ->
  well_formed id ->
  evaluation_id e = id /\
  exists rest,
    log_of (display_evaluation remote project_id compute_region model_id)
    = [ClientOpened;
       Called (ListModelEvaluations
                 (model_path project_id compute_region model_id));
       Called (GetModelEvaluation (evaluation_name e))] ++ rest.
Proof.
  intros Hlist He Hafter Hname Hid.
  assert (Hseg : evaluation_id e = id).
  { unfold evaluation_id. rewrite Hname.
    apply segment_model_evaluation_path. exact Hid. }
  split; [exact Hseg|].
  assert (Hlast : last_overall (before ++ e :: after) = Some e).
  { apply last_overall_split; [apply overall_empty; exact He | exact Hafter]. }
  rewrite (display_evaluation_run remote project_id compute_region model_id
             _ Hlist), Hlast.
  cbv zeta. rewrite Hseg, <- Hname.
  destruct (on_get_model_evaluation remote (evaluation_name e));
    unfold log_of; cbn [fst]; eexists.
  - rewrite app_nil_r. reflexivity.
  - reflexivity.
Qed.

Lemma display_evaluation_fetches_found_record_witness :
  on_list_model_evaluations (Fake.service Fake.class_then_whole)
    (model_path "p" "us-central1" "ICN123")
  = complete ([Fake.per_class] ++ Fake.whole :: []) /\
  annotation_spec_id Fake.whole = EmptyString /\
  (forall e', In e' [] -> annotation_spec_id e' <> EmptyString) /\
  evaluation_name Fake.whole
  = model_evaluation_path "p" "us-central1" "ICN123" "222" /\
  well_formed "222" /\
  evaluation_id Fake.whole = "222".
Proof.
  assert (Hnone : forall e' : ModelEvaluation,
             In e' [] -> annotation_spec_id e' <> EmptyString).
  { intros e' []. }
  split; [reflexivity|]. split; [reflexivity|]. split; [exact Hnone|].
  split; [reflexivity|]. split; [reflexivity|].
  exact (proj1 (display_evaluation_fetches_found_record
                  (Fake.service Fake.class_then_whole)
                  "p" "us-central1" "ICN123" "222"
                  [Fake.per_class] [] Fake.whole
                  eq_refl eq_refl Hnone eq_refl eq_refl)).
Defined.

(** ** Long-running operations *)

Lemma polls_waiting (n : nat) :
  polls (repeat (Polled false) n ++ [Polled true]) = S n.
Proof.
  induction n as [|n IH].
  - reflexivity.
  - cbn [repeat app]. unfold polls in *. cbn [filter is_poll List.length].
    rewrite IH. reflexivity.
Qed.

Lemma prints_waiting (n : nat) :
  prints (repeat (Polled false) n ++ [Polled true]) = 0.
Proof.
  induction n as [|n IH].
  - reflexivity.
  - cbn [repeat app]. unfold prints in *. cbn [filter is_print]. exact IH.
Qed.

(** X11: when the operation returned by the delete call ends in an
    error, [delete_model] ends with that error, unchanged, after the one
    delete call, and the confirmation is not printed: nothing at all is
    printed. *)
Theorem delete_model_failed_operation
    (remote : Service) (project_id compute_region model_id : string)
    (op : Operation) (exn : exception) :
  on_delete_model remote (model_path project_id compute_region model_id)
    = inr op ->
  outcome op = inl exn ->
  outcome_of (delete_model remote project_id compute_region model_id)
    = inl exn /\
  prints (log_of (delete_model remote project_id compute_region model_id))
    = 0 /\
  calls (log_of (delete_model remote project_id compute_region model_id))
    = 1 /\
  exists waiting,
    log_of (delete_model remote project_id compute_region model_id)
    = [ClientOpened;
       Called (DeleteModel (model_path project_id compute_region model_id))]
        ++ waiting.
Proof.
  intros Hdel Hout. rewrite delete_model_run, Hdel. cbv zeta.
  rewrite Hout.
  assert (Hquiet : forall n,
             calls (repeat (Polled false) n ++ [Polled true]) = 0).
  { intros n. induction n as [|n IH]; [reflexivity | exact IH]. }
  pose proof (prints_waiting (pending op)) as Hprints.
  pose proof (Hquiet (pending op)) as Hcalls.
  set (waiting := repeat (Polled false) (pending op) ++ [Polled true]) in *.
  unfold log_of, outcome_of. cbn [fst snd].
  split; [reflexivity|].
  split; [rewrite prints_app, Hprints; reflexivity|].
  split; [rewrite calls_app, Hcalls; reflexivity|].
  exists waiting. reflexivity.
Qed.

Lemma delete_model_failed_operation_witness :
  on_delete_model (Fake.broken [] []) (model_path "p" "us-central1" "ICN123")
  = inr {| operation := operation Fake.deletion;
           pending := 2;
           outcome := inl (GoogleAPICallError "409 deletion rejected") |} /\
  outcome_of (delete_model (Fake.broken [] []) "p" "us-central1" "ICN123")
  = inl (GoogleAPICallError "409 deletion rejected").
Proof.
  split; [reflexivity|].
  exact (proj1 (delete_model_failed_operation (Fake.broken [] [])
                  "p" "us-central1" "ICN123" _
                  (GoogleAPICallError "409 deletion rejected")
                  eq_refl eq_refl)).
Defined.

(** X12: [create_model] starts the training and returns: it never polls
    the operation the service hands out.  When the call succeeds it prints
    the name of that operation and "Training started..." and ends
    normally, however long the operation will still run. *)
Theorem create_model_does_not_wait
    (remote : Service)
    (project_id compute_region dataset_id model_name : string) :
  polls (log_of (create_model remote project_id compute_region dataset_id
                   model_name)) = 0 /\
  forall response,
    on_create_model remote (location_path project_id compute_region)
      {| spec_display_name := model_name; spec_dataset_id := dataset_id |}
    = inr response ->
    create_model remote project_id compute_region dataset_id model_name
    = ([ClientOpened;
        Called (CreateModel (location_path project_id compute_region)
                  {| spec_display_name := model_name;
                     spec_dataset_id := dataset_id |});
        Printed (Format "Training operation name: {}"
                   (VStr (operation_name (operation response))));
        Printed (Text "Training started...")],
       inr tt).
Proof.
  rewrite create_model_run. cbv zeta.
  destruct (on_create_model remote _ _) as [exn|response].
  - split; [reflexivity|]. intros response H. discriminate.
  - split; [reflexivity|]. intros response' H. injection H as <-.
    reflexivity.
Qed.

Lemma create_model_does_not_wait_witness :
  on_create_model (Fake.service []) (location_path "p" "us-central1")
    {| spec_display_name := "sentiment"; spec_dataset_id := "TST1" |}
  = inr Fake.deletion /\
  pending Fake.deletion = 3 /\
  create_model (Fake.service []) "p" "us-central1" "TST1" "sentiment"
  = ([ClientOpened;
      Called (CreateModel "projects/p/locations/us-central1"
                {| spec_display_name := "sentiment";
                   spec_dataset_id := "TST1" |});
      Printed (Format "Training operation name: {}"
                 (VStr "projects/p/locations/us-central1/operations/ICN9"));
      Printed (Text "Training started...")],
     inr tt).
Proof.
  split; [reflexivity|]. split; [reflexivity|].
  exact (proj2 (create_model_does_not_wait (Fake.service [])
                  "p" "us-central1" "TST1" "sentiment")
           Fake.deletion eq_refl).
Defined.

(** ** The size of a displayed percentage *)

(** X13: a percentage [round(x * 100, 2)] is never a tiny non-zero number:
    whatever the metric, when the percentage is finite and not zero it is
    a normal float with a 53-bit significand and an exponent of at least
    -59, so its magnitude is at least 1/128; anything that rounds below a
    hundredth is shown as zero. *)
Theorem percentage_is_zero_or_normal
    (x : float) (s : bool) (m : positive) (e : Z) :
  percentage x = S754_finite s m e ->
  (2 ^ 52 <= Zpos m < 2 ^ 53)%Z /\ (-59 <= e <= 971)%Z.
Proof.
  unfold percentage.
  destruct (Float64.mul x (Float64.of_int 100)) as [s0 | s0 | | s0 m0 e0];
    try discriminate.
  rewrite Rounding.round_finite. cbv zeta.
  set (k := if (0 <=? - e0)%Z
            then Float64.rne_div (Z.pos m0 * 100) (2 ^ (- e0))
            else (Z.pos m0 * 100 * 2 ^ e0)%Z).
  assert (Hk : (0 <= k)%Z).
  { unfold k. destruct (Z.leb_spec 0 (- e0)) as [Hneg | Hpos].
    - apply Rounding.rne_div_nonneg; [lia | apply Rounding.pow2_pos; lia].
    - pose proof (Rounding.pow2_pos e0 ltac:(lia)). nia. }
  destruct (Z.eqb_spec k 0) as [Hzero | Hnonzero]; [discriminate|].
  destruct (Rounding.of_ratio_100_shape s0 k ltac:(lia))
    as [Hinf | (m' & e' & Hy & Hm & He & _)].
  - rewrite Hinf. discriminate.
  - rewrite Hy. intros Heq. injection Heq as _ <- <-. split; assumption.
Qed.

Lemma percentage_is_zero_or_normal_witness :
  percentage Fake.half = S754_finite false 7036874417766400 (-47) /\
  (2 ^ 52 <= 7036874417766400 < 2 ^ 53)%Z /\ (-59 <= -47 <= 971)%Z.
Proof.
  assert (Hhalf : percentage Fake.half
                  = S754_finite false 7036874417766400 (-47))
    by (vm_compute; reflexivity).
  split; [exact Hhalf|].
  exact (percentage_is_zero_or_normal Fake.half false 7036874417766400 (-47)
           Hhalf).
Defined.
